(** * picotui: the Screen primitive and the Widget input/dispatch core

    A shallow embedding of [picotui/screen.py] and [picotui/basewidget.py]
    and the properties of their terminal output, input decoding, signal
    registry, run loop and item selection.

    Python values are modelled by the inductive [pyobj]; [bytes] objects are
    lists of [Byte.byte], [str] objects are lists of code points, [int]s are
    [Z].  Methods that touch the widget instance, the class attributes or
    the process' file descriptors run in the state-and-exception monad [M]. *)

From Stdlib Require Import ZArith List Lia Bool.
From Stdlib Require Import Strings.Byte Strings.Ascii Strings.String.
From Stdlib Require Import DecimalString.
From stdpp Require Import base option list gmap strings.

Local Open Scope Z_scope.

(** ** Bytes and text *)

Abbreviation bytes := (list byte).

(** A Python [str]: a sequence of code points. *)
Abbreviation str := (list Z).

#[global] Instance byte_eq_decision : EqDecision byte := Byte.byte_eq_dec.

#[global] Instance byte_countable : Countable byte :=
  inj_countable Byte.to_N Byte.of_N Byte.of_to_N.

Definition byte_to_Z (b : byte) : Z := Z.of_N (Byte.to_N b).

Definition byte_of_Z (z : Z) : byte :=
  match Byte.of_N (Z.to_N z) with
  | Some b => b
  | None => x00
  end.

(** A string literal of the source, as a [str]. *)
Definition str_of_string (s : string) : str :=
  map (fun a => Z.of_N (N_of_ascii a)) (list_ascii_of_string s).

(** ["%d" % z] *)
Definition fmt_d (z : Z) : str :=
  str_of_string (NilZero.string_of_int (Z.to_int z)).

(** ** The UTF-8 codec

    [str.encode()] / [bytes(s, "utf-8")] and [bytes.decode()] with the
    default strict error handler: lone surrogates do not encode, and only
    well-formed, shortest-form sequences decode. *)
Module Utf8.

Definition is_surrogate (c : Z) : bool := (0xD800 <=? c) && (c <=? 0xDFFF).

(** A Unicode scalar value: a code point in range that is no surrogate. *)
Definition is_scalar (c : Z) : bool :=
  (0 <=? c) && (c <? 0x110000) && negb (is_surrogate c).

Definition encode_char (c : Z) : option bytes :=
  if c <? 0 then None
  else if c <? 0x80 then Some [byte_of_Z c]
  else if c <? 0x800 then
    Some [byte_of_Z (0xC0 + c / 64); byte_of_Z (0x80 + c mod 64)]
  else if c <? 0x10000 then
    if is_surrogate c then None
    else Some [byte_of_Z (0xE0 + c / 4096);
               byte_of_Z (0x80 + (c / 64) mod 64);
               byte_of_Z (0x80 + c mod 64)]
  else if c <? 0x110000 then
    Some [byte_of_Z (0xF0 + c / 262144);
          byte_of_Z (0x80 + (c / 4096) mod 64);
          byte_of_Z (0x80 + (c / 64) mod 64);
          byte_of_Z (0x80 + c mod 64)]
  else None.

Fixpoint encode (s : str) : option bytes :=
  match s with
  | [] => Some []
  | c :: s' =>
      match encode_char c, encode s' with
      | Some b, Some bs => Some (b ++ bs)
      | _, _ => None
      end
  end.

(** [lo <= b <= hi] on a byte. *)
Definition between (lo hi : Z) (b : byte) : bool :=
  (lo <=? byte_to_Z b) && (byte_to_Z b <=? hi).

(** The payload of a continuation byte. *)
Definition low6 (b : byte) : Z := byte_to_Z b - 0x80.

(** Admissible range of the second byte, by lead byte (3- and 4-byte
    forms): this is what rules out overlong forms, surrogates and code
    points above U+10FFFF. *)
Definition second_ok (b0 b1 : byte) : bool :=
  let n0 := byte_to_Z b0 in
  if n0 =? 0xE0 then between 0xA0 0xBF b1
  else if n0 =? 0xED then between 0x80 0x9F b1
  else if n0 =? 0xF0 then between 0x90 0xBF b1
  else if n0 =? 0xF4 then between 0x80 0x8F b1
  else between 0x80 0xBF b1.

Fixpoint decode (bs : bytes) : option str :=
  match bs with
  | [] => Some []
  | b0 :: t0 =>
      let n0 := byte_to_Z b0 in
      if n0 <? 0x80 then cons n0 <$> decode t0
      else if between 0xC2 0xDF b0 then
        match t0 with
        | b1 :: t1 =>
            if between 0x80 0xBF b1
            then cons ((n0 - 0xC0) * 64 + low6 b1) <$> decode t1
            else None
        | _ => None
        end
      else if between 0xE0 0xEF b0 then
        match t0 with
        | b1 :: b2 :: t2 =>
            if second_ok b0 b1 && between 0x80 0xBF b2
            then cons ((n0 - 0xE0) * 4096 + low6 b1 * 64 + low6 b2)
                   <$> decode t2
            else None
        | _ => None
        end
      else if between 0xF0 0xF4 b0 then
        match t0 with
        | b1 :: b2 :: b3 :: t3 =>
            if second_ok b0 b1 && between 0x80 0xBF b2
               && between 0x80 0xBF b3
            then cons ((n0 - 0xF0) * 262144 + low6 b1 * 4096
                       + low6 b2 * 64 + low6 b3) <$> decode t3
            else None
        | _ => None
        end
      else None
  end.

End Utf8.

(** ** Python objects, exceptions *)

#[warnings="-register-all"]
Inductive pyobj : Type :=
  | PNone
  | PBool (b : bool)
  | PInt (z : Z)
  | PStr (s : str)
  | PBytes (b : bytes)
  | PList (l : list pyobj).

(** A Python callable registered as a signal handler, by identity. *)
Inductive callable : Type := Callable (id : N).

Inductive exn : Type :=
  | KeyError
  | IndexError
  | TypeError
  | AttributeError
  | AssertionError
  | ZeroDivisionError
  | UnicodeDecodeError
  | UnicodeEncodeError
  | TermiosError
  | UserError (tag : N).

(** ** Terminal attributes and the class hierarchy *)

(** What [termios.tcgetattr] returns:
    [[iflag, oflag, cflag, lflag, ispeed, ospeed, cc]]. *)
Record termios : Type := Termios {
  c_iflag : Z;
  c_oflag : Z;
  c_cflag : Z;
  c_lflag : Z;
  c_ispeed : Z;
  c_ospeed : Z;
  c_cc : list Z
}.

(** The classes of the two modules; [init_tty] and [deinit_tty] are class
    methods and store [org_termios] on the class they are called on. *)
Inductive klass : Type :=
  | ClsScreen
  | ClsWidget
  | ClsFocusableWidget
  | ClsEditableWidget
  | ClsChoiceWidget
  | ClsItemSelWidget.

#[global] Instance klass_eq_decision : EqDecision klass.
Proof. solve_decision. Defined.

Definition klass_to_nat (c : klass) : nat :=
  match c with
  | ClsScreen => 0
  | ClsWidget => 1
  | ClsFocusableWidget => 2
  | ClsEditableWidget => 3
  | ClsChoiceWidget => 4
  | ClsItemSelWidget => 5
  end.

Definition klass_of_nat (n : nat) : klass :=
  match n with
  | 0 => ClsScreen
  | 1 => ClsWidget
  | 2 => ClsFocusableWidget
  | 3 => ClsEditableWidget
  | 4 => ClsChoiceWidget
  | _ => ClsItemSelWidget
  end%nat.

#[global] Instance klass_countable : Countable klass.
Proof.
  refine (inj_countable' klass_to_nat klass_of_nat _).
  intros []; reflexivity.
Defined.

(** Method resolution order: the class itself, then its bases. *)
Definition mro (c : klass) : list klass :=
  match c with
  | ClsScreen => [ClsScreen]
  | ClsWidget => [ClsWidget; ClsScreen]
  | ClsFocusableWidget => [ClsFocusableWidget; ClsWidget; ClsScreen]
  | ClsEditableWidget =>
      [ClsEditableWidget; ClsFocusableWidget; ClsWidget; ClsScreen]
  | ClsChoiceWidget =>
      [ClsChoiceWidget; ClsEditableWidget; ClsFocusableWidget; ClsWidget;
       ClsScreen]
  | ClsItemSelWidget =>
      [ClsItemSelWidget; ClsChoiceWidget; ClsEditableWidget;
       ClsFocusableWidget; ClsWidget; ClsScreen]
  end.

(** ** Program state *)

Record State : Type := mkState {
  (* the widget instance [self] *)
  kbuf : bytes;
  signals : gmap string callable;
  choice : Z;
  items : list pyobj;
  (* class attributes *)
  org_termios : gmap klass termios;
  (* the process: file descriptors 0 and 1, and the terminal behind fd 0 *)
  stdin : list bytes;       (* what the coming [os.read(0, _)] deliver *)
  stdout : bytes;           (* everything [os.write(1, _)] has written *)
  tty : option termios      (* [None]: fd 0 is not a terminal *)
}.

Definition set_kbuf (v : bytes) (st : State) : State :=
  mkState v (signals st) (choice st) (items st) (org_termios st)
          (stdin st) (stdout st) (tty st).

Definition set_signals (v : gmap string callable) (st : State) : State :=
  mkState (kbuf st) v (choice st) (items st) (org_termios st)
          (stdin st) (stdout st) (tty st).

Definition set_choice (v : Z) (st : State) : State :=
  mkState (kbuf st) (signals st) v (items st) (org_termios st)
          (stdin st) (stdout st) (tty st).

Definition set_items (v : list pyobj) (st : State) : State :=
  mkState (kbuf st) (signals st) (choice st) v (org_termios st)
          (stdin st) (stdout st) (tty st).

Definition set_org_termios (v : gmap klass termios) (st : State)
  : State :=
  mkState (kbuf st) (signals st) (choice st) (items st) v
          (stdin st) (stdout st) (tty st).

Definition set_stdin (v : list bytes) (st : State) : State :=
  mkState (kbuf st) (signals st) (choice st) (items st) (org_termios st)
          v (stdout st) (tty st).

Definition set_stdout (v : bytes) (st : State) : State :=
  mkState (kbuf st) (signals st) (choice st) (items st) (org_termios st)
          (stdin st) v (tty st).

Definition set_tty (v : option termios) (st : State) : State :=
  mkState (kbuf st) (signals st) (choice st) (items st) (org_termios st)
          (stdin st) (stdout st) v.

(** ** The monad of Python statements

    A statement returns a value, raises an exception, or blocks for ever in
    a read; the state at that point is kept in all three cases. *)

Inductive outcome (A : Type) : Type :=
  | Ret (a : A) (st : State)
  | Raise (e : exn) (st : State)
  | Blocked (st : State).

Arguments Ret {A} a st.
Arguments Raise {A} e st.
Arguments Blocked {A} st.

Definition M (A : Type) : Type := State -> outcome A.

Definition ret {A} (a : A) : M A := fun st => Ret a st.

Definition raise {A} (e : exn) : M A := fun st => Raise e st.

Definition bind {A B} (m : M A) (k : A -> M B) : M B :=
  fun st =>
    match m st with
    | Ret a st' => k a st'
    | Raise e st' => Raise e st'
    | Blocked st' => Blocked st'
    end.

Definition gets {A} (f : State -> A) : M A := fun st => Ret (f st) st.

Definition modify (f : State -> State) : M unit := fun st => Ret tt (f st).

Declare Scope py_scope.
Delimit Scope py_scope with py.

Notation "'let*' x ':=' m 'in' k" := (bind m (fun x => k))
  (at level 10, x name, m at level 100, k at level 200) : py_scope.

Local Open Scope py_scope.

(** The state a statement ends in, however it ends. *)
Definition state_of {A} (o : outcome A) : State :=
  match o with
  | Ret _ st | Raise _ st | Blocked st => st
  end.

(** ** Operating-system primitives *)

(** [os.write(1, b)] *)
Definition os_write (b : bytes) : M unit :=
  modify (fun st => set_stdout (stdout st ++ b) st).

(** [os.read(0, n)]: at most [n] bytes of what the terminal has ready; an
    empty chunk is end of file; with nothing left to come the call blocks. *)
Definition os_read (n : nat) : M bytes :=
  fun st =>
    match stdin st with
    | [] => Blocked st
    | c :: rest =>
        if decide (length c <= n)%nat
        then Ret c (set_stdin rest st)
        else Ret (take n c) (set_stdin (drop n c :: rest) st)
    end.

(** [termios.tcgetattr(0)] *)
Definition tcgetattr : M termios :=
  fun st =>
    match tty st with
    | Some t => Ret t st
    | None => Raise TermiosError st
    end.

(** [termios.tcsetattr(0, when, attrs)] *)
Definition tcsetattr (attrs : termios) : M unit :=
  fun st =>
    match tty st with
    | Some _ => Ret tt (set_tty (Some attrs) st)
    | None => Raise TermiosError st
    end.

(** ** What the two modules take from outside *)

(** The key table [KEYMAP] of [picotui/defs.py], which [get_input] only
    reads: from byte sequences to key names. *)
Class KeyTable : Type := { KEYMAP : gmap bytes pyobj }.

(** The attribute change [tty.setraw] makes on the platform at hand. *)
Class Platform : Type := { raw_mode : termios -> termios }.

(** The methods a concrete widget class supplies ([Widget]'s docstring). *)
Class Methods : Type := {
  redraw : M unit;
  handle_key : pyobj -> M pyobj;
  handle_mouse : pyobj -> pyobj -> M pyobj
}.

(** Calling a registered callable with the widget as its argument. *)
Class Callables : Type := { call : callable -> M pyobj }.

(** ** Python built-ins used by the code *)

(** [l[:stop]] *)
Definition slice_to {A} (l : list A) (stop : Z) : list A :=
  if stop <? 0 then take (Z.to_nat (Z.of_nat (length l) + stop)) l
  else take (Z.to_nat stop) l.

(** [s[:stop]] on an object *)
Definition getslice_to (s : pyobj) (stop : Z) : M pyobj :=
  match s with
  | PStr t => ret (PStr (slice_to t stop))
  | PBytes b => ret (PBytes (slice_to b stop))
  | PList l => ret (PList (slice_to l stop))
  | _ => raise TypeError
  end.

(** [len(s)] *)
Definition len (s : pyobj) : M Z :=
  match s with
  | PStr t => ret (Z.of_nat (length t))
  | PBytes b => ret (Z.of_nat (length b))
  | PList l => ret (Z.of_nat (length l))
  | _ => raise TypeError
  end.

Definition SPACE : Z := 0x20.
Definition ESC : Z := 0x1b.

(** [" " * n] *)
Definition spaces (n : Z) : str := replicate (Z.to_nat n) SPACE.

(** [b.startswith(prefix)] *)
Fixpoint startswith (b prefix : bytes) : bool :=
  match prefix, b with
  | [], _ => true
  | p :: prefix', x :: b' => bool_decide (x = p) && startswith b' prefix'
  | _ :: _, [] => false
  end.

(** [b[i]] for [i >= 0] *)
Definition getitem (b : bytes) (i : nat) : M Z :=
  match b !! i with
  | Some x => ret (byte_to_Z x)
  | None => raise IndexError
  end.

(** Attribute lookup on a class: the first class of the MRO that has it. *)
Definition class_getattr (store : gmap klass termios) (cls : klass)
  : option termios :=
  (fix go (cs : list klass) : option termios :=
     match cs with
     | [] => None
     | c :: cs' =>
         match store !! c with
         | Some t => Some t
         | None => go cs'
         end
     end) (mro cls).

(** Attribute assignment on a class. *)
Definition class_setattr (store : gmap klass termios) (cls : klass)
    (t : termios) : gmap klass termios :=
  <[cls := t]> store.

(** [tty.setraw(0)].  It sets the attributes with [TCSAFLUSH], which
    drops the input received and not yet read; [stdin] holds what the
    reads to come deliver, so what is dropped here is not in it. *)
Definition tty_setraw {platform : Platform} : M unit :=
  let* mode := tcgetattr in tcsetattr (raw_mode mode).

(** [b * n] on bytes *)
Definition bytes_repeat (b : bytes) (n : Z) : bytes :=
  concat (replicate (Z.to_nat n) b).

(** The truth value of an object, as [if] takes it. *)
Definition truthy (v : pyobj) : bool :=
  match v with
  | PNone => false
  | PBool b => b
  | PInt z => negb (z =? 0)
  | PStr s => negb (bool_decide (s = []))
  | PBytes b => negb (bool_decide (b = []))
  | PList l => match l with [] => false | _ => true end
  end.

(** [while top < bottom: body(top); top += 1], for at most [fuel] turns;
    [true] when the loop is over, [false] when it is still running after
    them. *)
Fixpoint while_below (fuel : nat) (body : Z -> M unit) (top bottom : Z)
  : M bool :=
  match fuel with
  | O => ret (negb (top <? bottom))
  | S fuel' =>
      if top <? bottom then
        let* _ := body top in
        while_below fuel' body (top + 1) bottom
      else ret true
  end.

(** ** [picotui/screen.py] *)
Module Screen.

(** [Screen.wr] *)
Definition wr (s : pyobj) : M unit :=
  match s with
  | PStr t =>
      match Utf8.encode t with
      | Some b => os_write b
      | None => raise UnicodeEncodeError
      end
  | PBytes b => os_write b
  | _ => raise TypeError
  end.

(** [Screen.wr_fixedw] *)
Definition wr_fixedw (s : pyobj) (width : Z) : M unit :=
  let* s := getslice_to s width in
  let* _ := wr s in
  let* n := len s in
  wr (PStr (spaces (width - n))).

(** [Screen.attr_color]; [bg] is [None] for Python's [None], and the
    default argument is [Some (-1)]. *)
Definition attr_color (fg : Z) (bg : option Z) : M unit :=
  let '(fg, bg) :=
    if decide (bg = Some (-1))
    then (Z.land fg 0xf, Some (Z.shiftr fg 4))
    else (fg, bg) in
  match bg with
  | None =>
      if 8 <? fg
      then wr (PStr ([ESC] ++ str_of_string "[" ++ fmt_d (fg + 30 - 8)
                     ++ str_of_string ";1m"))
      else wr (PStr ([ESC] ++ str_of_string "[" ++ fmt_d (fg + 30)
                     ++ str_of_string "m"))
  | Some bg =>
      if bg <=? 8 then
        if 8 <? fg
        then wr (PStr ([ESC] ++ str_of_string "[" ++ fmt_d (fg + 30 - 8)
                       ++ str_of_string ";" ++ fmt_d (bg + 40)
                       ++ str_of_string ";1m"))
        else wr (PStr ([ESC] ++ str_of_string "[0;" ++ fmt_d (fg + 30)
                       ++ str_of_string ";" ++ fmt_d (bg + 40)
                       ++ str_of_string "m"))
      else raise AssertionError
  end.

(** [Screen.init_tty] *)
Definition init_tty {platform : Platform} (cls : klass) : M unit :=
  let* t := tcgetattr in
  let* _ := modify (fun st =>
              set_org_termios (class_setattr (org_termios st) cls t) st) in
  tty_setraw.

(** [Screen.deinit_tty] *)
Definition deinit_tty (cls : klass) : M unit :=
  let* o := gets (fun st => class_getattr (org_termios st) cls) in
  match o with
  | Some t => tcsetattr t
  | None => raise AttributeError
  end.

(** [Screen.cls] *)
Definition cls : M unit := wr (PBytes [x1b; x5b; x32; x4a]).

(** [Screen.goto] *)
Definition goto (x y : Z) : M unit :=
  wr (PStr ([ESC] ++ str_of_string "[" ++ fmt_d (y + 1)
            ++ str_of_string ";" ++ fmt_d (x + 1) ++ str_of_string "H")).

(** [Screen.clear_to_eol] *)
Definition clear_to_eol : M unit := wr (PBytes [x1b; x5b; x30; x4b]).

(** [Screen.clear_num_pos] *)
Definition clear_num_pos (num : Z) : M unit :=
  if 0 <? num
  then wr (PStr ([ESC] ++ str_of_string "[" ++ fmt_d num
                 ++ str_of_string "X"))
  else ret tt.

(** [Screen.attr_reset] *)
Definition attr_reset : M unit := wr (PBytes [x1b; x5b; x30; x6d]).

(** [Screen.cursor] *)
Definition cursor (onoff : bool) : M unit :=
  if onoff then wr (PBytes [x1b; x5b; x3f; x32; x35; x68])
  else wr (PBytes [x1b; x5b; x3f; x32; x35; x6c]).

(** The side bar of a box, drawn on both sides of one line. *)
Definition draw_sides (left width : Z) (top : Z) : M unit :=
  let* _ := goto left top in
  let* _ := wr (PBytes [xe2; x94; x82]) in
  let* _ := goto (left + width - 1) top in
  wr (PBytes [xe2; x94; x82]).

(** [Screen.draw_box], its [while] run for at most [fuel] turns. *)
Definition draw_box (fuel : nat) (left top width height : Z) : M bool :=
  let bottom := top + height - 1 in
  let* _ := goto left top in
  let* _ := wr (PBytes [xe2; x94; x8c]) in
  let hor := PBytes (bytes_repeat [xe2; x94; x80] (width - 2)) in
  let* _ := wr hor in
  let* _ := wr (PBytes [xe2; x94; x90]) in
  let* _ := goto left bottom in
  let* _ := wr (PBytes [xe2; x94; x94]) in
  let* _ := wr hor in
  let* _ := wr (PBytes [xe2; x94; x98]) in
  let top := top + 1 in
  while_below fuel (draw_sides left width) top bottom.

(** One line of [clear_box]. *)
Definition clear_line (left : Z) (s : pyobj) (top : Z) : M unit :=
  let* _ := goto left top in
  wr s.

(** [Screen.clear_box], its [while] run for at most [fuel] turns. *)
Definition clear_box (fuel : nat) (left top width height : Z) : M bool :=
  let s := PBytes (bytes_repeat [x20] width) in
  let bottom := top + height in
  while_below fuel (clear_line left s) top bottom.

(** [Screen.dialog_box], each [while] run for at most [fuel] turns. *)
Definition dialog_box (fuel : nat) (left top width height : Z)
    (title : pyobj) : M bool :=
  let* cleared :=
    clear_box fuel (left + 1) (top + 1) (width - 2) (height - 2) in
  if cleared then
    let* drawn := draw_box fuel left top width height in
    if drawn then
      if truthy title then
        let pos := 1 in
        let* _ := goto (left + pos) top in
        let* _ := wr title in
        ret true
      else ret true
    else ret false
  else ret false.

(** [Screen.enable_mouse] *)
Definition enable_mouse : M unit := wr (PBytes [x1b; x5b; x3f; x39; x68]).

(** [Screen.disable_mouse] *)
Definition disable_mouse : M unit := wr (PBytes [x1b; x5b; x3f; x39; x6c]).

End Screen.

(** ** [picotui/basewidget.py] *)

(** Standard widget result actions (as returned from [loop]) *)
Definition ACTION_OK : Z := 1000.
Definition ACTION_CANCEL : Z := 1001.
Definition ACTION_NEXT : Z := 1002.
Definition ACTION_PREV : Z := 1003.

(** The mouse-report prefix [b"\x1b[M"]. *)
Definition MOUSE_PREFIX : bytes := [x1b; x5b; x4d].

(** The attributes [x], [y], [w], [h] of a widget: [x] and [y] are there
    once [set_xy] has run, [w] and [h] once the concrete class has set them;
    reading one that is not there raises [AttributeError]. *)
Record Geometry : Type := mkGeometry {
  attr_x : option Z;
  attr_y : option Z;
  attr_w : option Z;
  attr_h : option Z
}.

(** The result of a method that reads the widget and writes nothing. *)
Inductive result (A : Type) : Type :=
  | Ok (a : A)
  | Fail (e : exn).

Arguments Ok {A} a.
Arguments Fail {A} e.

Module Widget.
Section methods.
Context {keytable : KeyTable} {methods : Methods} {callables : Callables}.

(** [Widget.__init__] *)
Definition init : M unit :=
  let* _ := modify (set_kbuf []) in
  modify (set_signals ∅).

(** [Widget.signal] *)
Definition signal (sig : string) : M unit :=
  let* sigs := gets signals in
  match sigs !! sig with
  | Some handler => let* _ := call handler in ret tt
  | None => ret tt
  end.

(** [Widget.on] *)
Definition on (sig : string) (handler : callable) : M unit :=
  modify (fun st => set_signals (<[sig := handler]> (signals st)) st).

(** The first statement of [get_input]: the candidate key, from the
    lookahead buffer or from a fresh read. *)
Definition next_key : M bytes :=
  let* kb := gets kbuf in
  match kb with
  | _ :: _ =>
      let* _ := modify (set_kbuf (drop 1 kb)) in
      ret (take 1 kb)
  | [] =>
      let* key := os_read 32 in
      let* k0 := getitem key 0 in
      if decide (k0 ≠ 0x1b) then
        match Utf8.decode key with
        | None => raise UnicodeDecodeError
        | Some text =>
            match Utf8.encode (drop 1 text) with
            | None => raise UnicodeEncodeError
            | Some rest =>
                let* _ := modify (set_kbuf rest) in
                match Utf8.encode (take 1 text) with
                | None => raise UnicodeEncodeError
                | Some first => ret first
                end
            end
        end
      else ret key
  end.

(** [_KEYMAP.get(key, key)] *)
Definition keymap_get (key : bytes) : pyobj :=
  default (PBytes key) (KEYMAP !! key).

(** The mouse test and decoding at the end of [get_input]. *)
Definition decode_mouse (key : pyobj) : M pyobj :=
  match key with
  | PBytes b =>
      if startswith b MOUSE_PREFIX && bool_decide (length b = 6%nat) then
        let* k5 := getitem b 5 in
        let row := k5 - 33 in
        let* k4 := getitem b 4 in
        let col := k4 - 33 in
        ret (PList [PInt col; PInt row])
      else ret key
  | _ => ret key
  end.

(** [Widget.get_input] *)
Definition get_input : M pyobj :=
  let* key := next_key in
  decode_mouse (keymap_get key).

(** [Widget.handle_input] *)
Definition handle_input (inp : pyobj) : M pyobj :=
  match inp with
  | PList l =>
      match l with
      | a :: b :: _ => handle_mouse a b
      | _ => raise IndexError
      end
  | _ => handle_key inp
  end.

(** [res is not None and res is not True] *)
Definition finishes (res : pyobj) : bool :=
  match res with
  | PNone => false
  | PBool true => false
  | _ => true
  end.

(** One turn of the [while True] of [loop]: [Some res] when the loop
    returns [res], [None] when it goes round again. *)
Definition loop_turn : M (option pyobj) :=
  let* key := get_input in
  let* res := handle_input key in
  if finishes res then ret (Some res) else ret None.

(** At most [fuel] turns of the [while True]; [None] when the loop is
    still running after them. *)
Fixpoint loop_while (fuel : nat) : M (option pyobj) :=
  match fuel with
  | O => ret None
  | S fuel' =>
      let* r := loop_turn in
      match r with
      | Some res => ret (Some res)
      | None => loop_while fuel'
      end
  end.

(** [Widget.loop], run for at most [fuel] turns. *)
Definition loop (fuel : nat) : M (option pyobj) :=
  let* _ := redraw in
  loop_while fuel.

(** [Widget.set_xy] *)
Definition set_xy (x y : Z) (g : Geometry) : Geometry :=
  mkGeometry (Some x) (Some y) (attr_w g) (attr_h g).

(** [Widget.inside]: the chained comparisons and the [and] stop at the
    first test that fails, before the attributes of the later ones are
    read. *)
Definition inside (g : Geometry) (x y : Z) : result bool :=
  match attr_y g with
  | None => Fail AttributeError
  | Some self_y =>
      if self_y <=? y then
        match attr_h g with
        | None => Fail AttributeError
        | Some self_h =>
            if y <? self_y + self_h then
              match attr_x g with
              | None => Fail AttributeError
              | Some self_x =>
                  if self_x <=? x then
                    match attr_w g with
                    | None => Fail AttributeError
                    | Some self_w => Ok (x <? self_x + self_w)
                    end
                  else Ok false
              end
            else Ok false
        end
      else Ok false
  end.

(** [max] of a generator of lengths that has yielded [m] so far. *)
Fixpoint max_len (m : Z) (items : list pyobj) : M Z :=
  match items with
  | [] => ret m
  | t :: items' =>
      let* n := len t in
      max_len (if m <? n then n else m) items'
  end.

(** [Widget.longest] *)
Definition longest (items : list pyobj) : M Z :=
  match items with
  | [] => ret 0
  | t :: items' =>
      let* n := len t in
      max_len n items'
  end.

(** [Widget.set_cursor] *)
Definition set_cursor : M unit := Screen.cursor false.

End methods.
End Widget.

Module ChoiceWidget.

(** [ChoiceWidget.__init__] *)
Definition init (c : Z) : M unit :=
  let* _ := Widget.init in
  modify (set_choice c).

(** [ChoiceWidget.get] *)
Definition get : M Z := gets choice.

End ChoiceWidget.

Module ItemSelWidget.
Section methods.
Context {methods : Methods} {callables : Callables}.

(** [ItemSelWidget.__init__] *)
Definition init (its : list pyobj) : M unit :=
  let* _ := ChoiceWidget.init 0 in
  modify (set_items its).

(** [ItemSelWidget.move_sel] *)
Definition move_sel (direction : Z) : M unit :=
  let* c := gets choice in
  let* its := gets items in
  let n := Z.of_nat (length its) in
  if decide (n = 0) then raise ZeroDivisionError
  else
    let* _ := modify (set_choice ((c + direction) mod n)) in
    let* _ := redraw in
    Widget.signal "changed".

End methods.
End ItemSelWidget.

(** ** Properties used in the statements *)

(** A statement that leaves [choice] and [items] as they are, however it
    ends. *)
Definition keeps_selection {A} (m : M A) : Prop :=
  ∀ st, choice (state_of (m st)) = choice st
        ∧ items (state_of (m st)) = items st.

(** A statement that always returns. *)
Definition returns {A} (m : M A) : Prop :=
  ∀ st, ∃ a st', m st = Ret a st'.

(** Text: a [str] of Unicode scalar values.  (A Python [str] can also hold
    lone surrogates, which are not characters and do not encode.) *)
Definition text (s : str) : Prop :=
  Forall (fun c => Utf8.is_scalar c = true) s.

(** What [wr_fixedw] hands to [wr], for a width that is not negative. *)
Definition fixedw_text (s : str) (w : Z) : str :=
  take (Z.to_nat w) s
  ++ spaces (w - Z.of_nat (length (take (Z.to_nat w) s))).

(** A statement that returns, having only appended [out] to the output. *)
Definition appends (m : M unit) (out : bytes) : Prop :=
  forall st, m st = Ret tt (set_stdout (stdout st ++ out) st).

(** The bytes of a text that encodes. *)
Definition encoded (s : str) : bytes := default [] (Utf8.encode s).

(** What [goto] writes. *)
Definition goto_out (x y : Z) : bytes :=
  encoded ([ESC] ++ str_of_string "[" ++ fmt_d (y + 1)
           ++ str_of_string ";" ++ fmt_d (x + 1) ++ str_of_string "H").

(** What [clear_box] writes: for each line from [top], in order, the move
    to its left end and [width] spaces. *)
Definition clear_box_out (left top width height : Z) : bytes :=
  flat_map (fun i => goto_out left (top + Z.of_nat i)
                     ++ bytes_repeat [x20] width)
           (seq 0 (Z.to_nat height)).

(** What [draw_box] writes: the top border, the bottom border, and the two
    side bars of each line strictly between them. *)
Definition draw_box_out (left top width height : Z) : bytes :=
  goto_out left top
  ++ [xe2; x94; x8c] ++ bytes_repeat [xe2; x94; x80] (width - 2)
  ++ [xe2; x94; x90]
  ++ goto_out left (top + height - 1)
  ++ [xe2; x94; x94] ++ bytes_repeat [xe2; x94; x80] (width - 2)
  ++ [xe2; x94; x98]
  ++ flat_map (fun i => goto_out left (top + 1 + Z.of_nat i)
                        ++ [xe2; x94; x82]
                        ++ goto_out (left + width - 1) (top + 1 + Z.of_nat i)
                        ++ [xe2; x94; x82])
              (seq 0 (Z.to_nat (height - 2))).

(** Every value of the key table is a key name. *)
Definition names_only (keytable : KeyTable) : Prop :=
  forall k v, KEYMAP !! k = Some v -> exists s, v = PStr s.

Section run.
Context {keytable : KeyTable} {methods : Methods} {callables : Callables}.

(** [continues st k st']: from [st], the [while True] of [loop] makes [k]
    turns, each handler result being [None] or [True], and is then at
    [st']. *)
Inductive continues : State -> nat -> State -> Prop :=
  | continues_O st : continues st 0 st
  | continues_S st key st1 res st2 k st3 :
      Widget.get_input st = Ret key st1 ->
      Widget.handle_input key st1 = Ret res st2 ->
      res = PNone \/ res = PBool true ->
      continues st2 k st3 ->
      continues st (S k) st3.

(** [n] calls of [get_input] in a row, and the keys they return. *)
Fixpoint get_inputs (n : nat) : M (list pyobj) :=
  match n with
  | O => ret []
  | S n' =>
      let* k := Widget.get_input in
      let* ks := get_inputs n' in
      ret (k :: ks)
  end.

End run.

(** ** A concrete widget, for running the definitions *)
Module Demo.

(** Two entries of a key table. *)
#[export] Instance keys : KeyTable :=
  {| KEYMAP := {[ [x1b; x5b; x41] := PStr (str_of_string "KEY_UP");
                  [x0d] := PStr (str_of_string "KEY_ENTER") ]} |}.

(** [tty.setraw] with the Linux flag values. *)
#[export] Instance linux : Platform :=
  {| raw_mode t :=
       Termios (Z.land (c_iflag t) (Z.lnot 0x532))
               (Z.land (c_oflag t) (Z.lnot 0x1))
               (Z.lor (Z.land (c_cflag t) (Z.lnot 0x130)) 0x30)
               (Z.land (c_lflag t) (Z.lnot 0x800b))
               (c_ispeed t) (c_ospeed t)
               (<[6%nat := 1]> (<[5%nat := 0]> (c_cc t))) |}.

(** A widget that redraws by writing its selection, accepts on Enter,
    cancels on a click and ignores every other key. *)
#[export] Instance widget : Methods :=
  {| redraw :=
       let* c := gets choice in
       Screen.wr (PStr (str_of_string "[" ++ fmt_d c ++ str_of_string "]"));
     handle_key k :=
       match k with
       | PStr _ => ret (PInt ACTION_OK)
       | _ => ret PNone
       end;
     handle_mouse _ _ := ret (PInt ACTION_CANCEL) |}.

(** Callables that ring the bell. *)
#[export] Instance bell : Callables :=
  {| call _ := let* _ := Screen.wr (PBytes [x07]) in ret PNone |}.

Definition cooked : termios :=
  Termios 0x500 0x5 0xbf 0x8a3b 15 15 (replicate 32 0).

(** A fresh [ItemSelWidget] over [its], with [input] pending on fd 0. *)
Definition start (its : list pyobj) (input : list bytes) : State :=
  mkState [] ∅ 0 its ∅ input [] (Some cooked).

(** A fresh widget in a process whose input is no terminal. *)
Definition piped : State := mkState [] ∅ 0 [] ∅ [] [] None.

Definition three : list pyobj :=
  [PStr (str_of_string "a"); PStr (str_of_string "b");
   PStr (str_of_string "c")].

End Demo.

(** * Properties *)

(** ** The monad *)

Lemma bind_Ret {A B} (m : M A) (k : A -> M B) st a st' :
  m st = Ret a st' -> bind m k st = k a st'.
Proof. unfold bind. intros ->. reflexivity. Qed.

Lemma bind_Raise {A B} (m : M A) (k : A -> M B) st e st' :
  m st = Raise e st' -> bind m k st = Raise e st'.
Proof. unfold bind. intros ->. reflexivity. Qed.

Lemma bind_Blocked {A B} (m : M A) (k : A -> M B) st st' :
  m st = Blocked st' -> bind m k st = Blocked st'.
Proof. unfold bind. intros ->. reflexivity. Qed.

(** A [bind] returns only if both of its parts do. *)
Lemma bind_Ret_inv {A B} (m : M A) (k : A -> M B) st b st' :
  bind m k st = Ret b st' ->
  exists a st1, m st = Ret a st1 /\ k a st1 = Ret b st'.
Proof.
  unfold bind. destruct (m st) as [a st1|e st1|st1]; try discriminate.
  intros Hk. exists a, st1. split; [reflexivity | exact Hk].
Qed.

Lemma keeps_selection_ret {A} (a : A) : keeps_selection (ret a).
Proof. intros st. split; reflexivity. Qed.

Lemma keeps_selection_bind {A B} (m : M A) (k : A -> M B) :
  keeps_selection m -> (forall a, keeps_selection (k a)) ->
  keeps_selection (bind m k).
Proof.
  intros Hm Hk st. unfold bind.
  destruct (Hm st) as [Hc Hi].
  destruct (m st) as [a st1|e st1|st1]; simpl in *.
  - destruct (Hk a st1) as [Hc' Hi']. split; congruence.
  - split; assumption.
  - split; assumption.
Qed.

Lemma returns_ret {A} (a : A) : returns (ret a).
Proof. intros st. exists a, st. reflexivity. Qed.

Lemma returns_bind {A B} (m : M A) (k : A -> M B) :
  returns m -> (forall a, returns (k a)) -> returns (bind m k).
Proof.
  intros Hm Hk st. destruct (Hm st) as (a & st1 & Hst).
  destruct (Hk a st1) as (b & st2 & Hst2).
  exists b, st2. rewrite (bind_Ret _ _ _ _ _ Hst). exact Hst2.
Qed.

(** ** The signal registry *)

Section signal_registry.
Context {callables : Callables}.

Lemma signal_eq sig st :
  Widget.signal sig st
  = match signals st !! sig with
    | Some handler => bind (call handler) (fun _ => ret tt) st
    | None => Ret tt st
    end.
Proof.
  unfold Widget.signal, bind at 1, gets.
  destruct (signals st !! sig); reflexivity.
Qed.

(** With no handler under [sig], [signal] is a no-op that returns. *)
Lemma signal_unbound sig st :
  signals st !! sig = None -> Widget.signal sig st = Ret tt st.
Proof.
  intros Hs. rewrite signal_eq, Hs. reflexivity.
Qed.

(** With [handler] under [sig], [signal] is one call of [handler] on the
    widget. *)
Lemma signal_bound sig handler st :
  signals st !! sig = Some handler ->
  Widget.signal sig st = bind (call handler) (fun _ => ret tt) st.
Proof.
  intros Hs. rewrite signal_eq, Hs. reflexivity.
Qed.

(** [on] then [signal]: the handler just registered is the one called,
    once, on the widget as [on] left it. *)
Lemma signal_after_on sig handler st :
  bind (Widget.on sig handler) (fun _ => Widget.signal sig) st
  = bind (call handler) (fun _ => ret tt)
      (set_signals (<[sig := handler]> (signals st)) st).
Proof.
  unfold Widget.on, bind at 1, modify.
  apply signal_bound. simpl. apply lookup_insert_eq.
Qed.

(** [on] replaces: the last handler registered under a name is the one
    [signal] calls. *)
Lemma on_replaces sig h1 h2 st :
  bind (Widget.on sig h1) (fun _ => Widget.on sig h2) st
  = Widget.on sig h2 st.
Proof.
  unfold Widget.on, bind, modify, set_signals. simpl.
  rewrite insert_insert_eq. reflexivity.
Qed.

Lemma keeps_selection_signal sig :
  (forall h, keeps_selection (call h)) ->
  keeps_selection (Widget.signal sig).
Proof.
  intros Hc st. rewrite signal_eq.
  destruct (signals st !! sig) as [h|].
  - apply (keeps_selection_bind (call h) (fun _ => ret tt)).
    + apply Hc.
    + intros _. apply keeps_selection_ret.
  - split; reflexivity.
Qed.

Lemma returns_signal sig :
  (forall h, returns (call h)) -> returns (Widget.signal sig).
Proof.
  intros Hc st. rewrite signal_eq.
  destruct (signals st !! sig) as [h|].
  - apply (returns_bind (call h) (fun _ => ret tt)).
    + apply Hc.
    + intros _. apply returns_ret.
  - exists tt, st. reflexivity.
Qed.

End signal_registry.

(** C1. [Widget.signal]'s docstring promises a [KeyError] when no callback
    has been set through [on]; the code tests [sig in self.signals] and so
    returns normally without calling anything: on a widget just constructed,
    emitting ["changed"] returns and leaves the widget as [__init__] made
    it. *)
Theorem signal_unregistered_is_silent (callables : Callables) (st : State) :
  bind Widget.init (fun _ => Widget.signal "changed") st
  = Ret tt (set_signals ∅ (set_kbuf [] st)).
Proof.
  unfold Widget.init, bind at 1 2, modify.
  apply signal_unbound. simpl. apply lookup_empty.
Qed.

(** ** Colours *)

(** The guard of [attr_color]: an explicit background above 8 is refused,
    before anything is written. *)
Lemma attr_color_bg_above_8 fg bg st :
  8 < bg -> Screen.attr_color fg (Some bg) st = Raise AssertionError st.
Proof.
  intros Hbg. unfold Screen.attr_color.
  destruct (decide (Some bg = Some (-1))) as [Heq|_].
  - inversion Heq. lia.
  - destruct (Z.leb_spec bg 8); [lia | reflexivity].
Qed.

(** The guard has no lower bound: no background below 9 is refused. *)
Lemma attr_color_bg_up_to_8 fg bg st :
  bg <= 8 -> bg <> -1 ->
  Screen.attr_color fg (Some bg) st <> Raise AssertionError st.
Proof.
  intros Hbg Hne. unfold Screen.attr_color.
  destruct (decide (Some bg = Some (-1))) as [Heq|_].
  - inversion Heq. contradiction.
  - destruct (Z.leb_spec bg 8); [| lia].
    destruct (8 <? fg); unfold Screen.wr;
      match goal with
      | |- context [Utf8.encode ?t] => destruct (Utf8.encode t)
      end; discriminate.
Qed.

(** C3. The docstring of [attr_color] gives 0 to 8 as the allowed range of
    an explicit [bg], and the code asserts only [bg <= 8]: with [bg = -2]
    the call returns normally, having written [ESC [0;37;38m]. *)
Theorem attr_color_negative_bg_accepted (st : State) :
  Screen.attr_color 7 (Some (-2)) st
  = Ret tt (set_stdout (stdout st ++ [x1b; x5b; x30; x3b; x33; x37; x3b;
                                      x33; x38; x6d]) st).
Proof. reflexivity. Qed.

Lemma unpack_bg bg fg_low :
  0 <= fg_low <= 15 -> Z.shiftr (bg * 16 + fg_low) 4 = bg.
Proof.
  intros Hfg. rewrite Z.shiftr_div_pow2 by lia.
  change (2 ^ 4) with 16. Z.div_mod_to_equations. lia.
Qed.

Lemma unpack_fg bg fg_low :
  0 <= fg_low <= 15 -> Z.land (bg * 16 + fg_low) 0xf = fg_low.
Proof.
  intros Hfg. change 0xf with (Z.ones 4). rewrite Z.land_ones by lia.
  change (2 ^ 4) with 16. Z.div_mod_to_equations. lia.
Qed.

(** C8. With the background left to its default [-1], the packed colour
    [bg * 16 + fg_low] makes [attr_color] do exactly what
    [attr_color(fg_low, bg)] does, for [bg] in 0..8 and [fg_low] in 0..15:
    same outcome, same bytes written. *)
Theorem attr_color_packed (bg fg_low : Z) (st : State) :
  0 <= bg <= 8 -> 0 <= fg_low <= 15 ->
  Screen.attr_color (bg * 16 + fg_low) (Some (-1)) st
  = Screen.attr_color fg_low (Some bg) st.
Proof.
  intros Hbg Hfg. unfold Screen.attr_color.
  destruct (decide (Some (-1) = Some (-1))) as [_|Hne]; [| congruence].
  destruct (decide (Some bg = Some (-1))) as [Heq|_].
  { inversion Heq. lia. }
  rewrite unpack_bg, unpack_fg by assumption. reflexivity.
Qed.

(** ** Item selection *)

Section item_selection.
Context {methods : Methods} {callables : Callables}.

(** A widget as its constructor leaves it: first item selected, nothing
    buffered, no handler registered. *)
Lemma init_selection its st :
  exists st', ItemSelWidget.init its st = Ret tt st'
    /\ choice st' = 0 /\ items st' = its
    /\ kbuf st' = [] /\ signals st' = ∅.
Proof. eexists. repeat split. Qed.

(** On an empty [items], [move_sel] stops at the modulus. *)
Lemma move_sel_empty d st :
  items st = [] -> ItemSelWidget.move_sel d st = Raise ZeroDivisionError st.
Proof.
  intros Hi. unfold ItemSelWidget.move_sel, bind, gets. rewrite Hi.
  reflexivity.
Qed.

(** On a non-empty [items], it stores the new [choice], redraws and emits
    ["changed"]. *)
Lemma move_sel_nonempty d st :
  items st <> [] ->
  ItemSelWidget.move_sel d st
  = bind redraw (fun _ => Widget.signal "changed")
      (set_choice ((choice st + d) mod Z.of_nat (length (items st))) st).
Proof.
  intros Hi. unfold ItemSelWidget.move_sel.
  unfold bind at 1 2, gets.
  destruct (decide (Z.of_nat (length (items st)) = 0)) as [Hz|_].
  - destruct (items st); [contradiction | simpl in Hz; lia].
  - reflexivity.
Qed.

Lemma keeps_selection_after_redraw :
  keeps_selection redraw -> (forall h, keeps_selection (call h)) ->
  keeps_selection (bind redraw (fun _ => Widget.signal "changed")).
Proof.
  intros Hr Hc. apply keeps_selection_bind; [exact Hr |].
  intros _. apply keeps_selection_signal. exact Hc.
Qed.

(** What [move_sel] leaves in [choice] and [items], however the redraw and
    the handler end. *)
Lemma move_sel_choice d st :
  keeps_selection redraw -> (forall h, keeps_selection (call h)) ->
  items st <> [] ->
  choice (state_of (ItemSelWidget.move_sel d st))
  = (choice st + d) mod Z.of_nat (length (items st))
  /\ items (state_of (ItemSelWidget.move_sel d st)) = items st.
Proof.
  intros Hr Hc Hi. rewrite move_sel_nonempty by assumption.
  destruct (keeps_selection_after_redraw Hr Hc
              (set_choice ((choice st + d) mod Z.of_nat (length (items st)))
                          st)) as [H1 H2].
  split; [exact H1 | exact H2].
Qed.

(** [move_sel] returns whenever the redraw and the handlers do. *)
Lemma move_sel_returns d st :
  returns redraw -> (forall h, returns (call h)) ->
  items st <> [] ->
  exists st', ItemSelWidget.move_sel d st = Ret tt st'.
Proof.
  intros Hr Hc Hi. rewrite move_sel_nonempty by assumption.
  destruct (returns_bind redraw (fun _ => Widget.signal "changed") Hr
              (fun _ => returns_signal "changed" Hc)
              (set_choice ((choice st + d) mod Z.of_nat (length (items st)))
                          st)) as ([] & st' & Hst).
  exists st'. exact Hst.
Qed.

End item_selection.

(** C2. On a widget with [n > 0] items, whose redraw and handlers leave the
    selection alone, [move_sel d] leaves [0 <= choice < n] for every integer
    [d]; and [move_sel d1] followed by [move_sel d2] leaves the [choice]
    that [move_sel (d1 + d2)] leaves from the original state.  [move_sel]
    returns whenever the redraw and the handlers return. *)
Theorem move_sel_range_and_sum
    (methods : Methods) (callables : Callables) (st : State) (d1 d2 : Z) :
  keeps_selection redraw -> (forall h, keeps_selection (call h)) ->
  items st <> [] ->
  (0 <= choice (state_of (ItemSelWidget.move_sel d1 st))
     < Z.of_nat (length (items st)))
  /\ (forall st1, ItemSelWidget.move_sel d1 st = Ret tt st1 ->
        choice (state_of (ItemSelWidget.move_sel d2 st1))
        = choice (state_of (ItemSelWidget.move_sel (d1 + d2) st)))
  /\ (returns redraw -> (forall h, returns (call h)) ->
      exists st1 st2, ItemSelWidget.move_sel d1 st = Ret tt st1
                      /\ ItemSelWidget.move_sel d2 st1 = Ret tt st2).
Proof.
  intros Hr Hc Hi.
  assert (Hn : 0 < Z.of_nat (length (items st))).
  { destruct (items st); [contradiction | simpl; lia]. }
  destruct (move_sel_choice d1 st Hr Hc Hi) as [Hc1 Hi1].
  split; [| split].
  - rewrite Hc1. apply Z.mod_pos_bound. exact Hn.
  - intros st1 Hst1. rewrite Hst1 in Hc1, Hi1. simpl in Hc1, Hi1.
    assert (Hi' : items st1 <> []) by (rewrite Hi1; exact Hi).
    destruct (move_sel_choice d2 st1 Hr Hc Hi') as [Hc2 _].
    destruct (move_sel_choice (d1 + d2) st Hr Hc Hi) as [Hc3 _].
    rewrite Hc2, Hc3, Hc1, Hi1.
    rewrite Z.add_mod_idemp_l by lia. f_equal. lia.
  - intros Rr Rc.
    destruct (move_sel_returns d1 st Rr Rc Hi) as [st1 Hst1].
    assert (Hi' : items st1 <> []).
    { rewrite Hst1 in Hi1. simpl in Hi1. rewrite Hi1. exact Hi. }
    destruct (move_sel_returns d2 st1 Rr Rc Hi') as [st2 Hst2].
    exists st1, st2. split; assumption.
Qed.

(** C10. On an empty [items] the modulus of [move_sel] is by zero: the call
    raises [ZeroDivisionError] for every [d] and the widget, [choice]
    included, is as before the call.  On a non-empty [items] the modulus
    yields a value: the new [choice] is stored and the call goes on to the
    redraw and the ["changed"] signal. *)
Theorem move_sel_zero_division
    (methods : Methods) (callables : Callables) (st : State) (d : Z) :
  (items st = [] ->
   ItemSelWidget.move_sel d st = Raise ZeroDivisionError st
   /\ choice (state_of (ItemSelWidget.move_sel d st)) = choice st)
  /\ (items st <> [] ->
      ItemSelWidget.move_sel d st
      = bind redraw (fun _ => Widget.signal "changed")
          (set_choice ((choice st + d) mod Z.of_nat (length (items st))) st)).
Proof.
  split.
  - intros Hi. rewrite (move_sel_empty d st Hi). split; reflexivity.
  - apply move_sel_nonempty.
Qed.

(** ** Raw mode *)

Section raw_mode.
Context {platform : Platform}.

(** The attribute a class has just been given is the one it finds. *)
Lemma class_getattr_setattr store cls t :
  class_getattr (class_setattr store cls t) cls = Some t.
Proof.
  unfold class_getattr, class_setattr.
  destruct cls; simpl; rewrite lookup_insert_eq; reflexivity.
Qed.

(** With no class holding the attribute, the lookup fails. *)
Lemma class_getattr_empty cls : class_getattr ∅ cls = None.
Proof. destruct cls; reflexivity. Qed.

(** [init_tty] on a terminal: the attributes are saved on [cls] and the
    terminal is put in raw mode. *)
Lemma init_tty_on_terminal cls st t :
  tty st = Some t ->
  Screen.init_tty cls st
  = Ret tt (set_tty (Some (raw_mode t))
              (set_org_termios (class_setattr (org_termios st) cls t) st)).
Proof.
  intros Ht. unfold Screen.init_tty, tty_setraw, bind, tcgetattr, tcsetattr,
    modify.
  rewrite Ht.
  repeat (change (tty (set_org_termios (class_setattr (org_termios st) cls t)
                         st)) with (tty st); rewrite Ht).
  reflexivity.
Qed.

(** [init_tty] off a terminal fails and saves nothing. *)
Lemma init_tty_no_terminal cls st :
  tty st = None -> Screen.init_tty cls st = Raise TermiosError st.
Proof.
  intros Ht. unfold Screen.init_tty, bind, tcgetattr. rewrite Ht.
  reflexivity.
Qed.

Lemma init_tty_Ret_inv cls st st1 :
  Screen.init_tty cls st = Ret tt st1 ->
  exists t, tty st = Some t
    /\ st1 = set_tty (Some (raw_mode t))
               (set_org_termios (class_setattr (org_termios st) cls t) st).
Proof.
  intros Hinit. destruct (tty st) as [t|] eqn:Ht.
  - rewrite (init_tty_on_terminal cls st t Ht) in Hinit.
    exists t. split; [reflexivity | congruence].
  - rewrite (init_tty_no_terminal cls st Ht) in Hinit. discriminate.
Qed.

End raw_mode.

(** Through one and the same class: in a process where no class has been
    given [org_termios], hence where no [init_tty] has succeeded,
    [deinit_tty] fails (the attribute lookup raises [AttributeError]) and
    changes nothing.  After an [init_tty] that returned, [deinit_tty] on
    the same class returns and the terminal attributes are again those the
    terminal had when [init_tty] was called, which are the ones it saved. *)
Theorem deinit_tty_restores (platform : Platform) (cls : klass) :
  (forall st, org_termios st = ∅ ->
     Screen.deinit_tty cls st = Raise AttributeError st)
  /\ (forall st st1, Screen.init_tty cls st = Ret tt st1 ->
        class_getattr (org_termios st1) cls = tty st
        /\ exists st2, Screen.deinit_tty cls st1 = Ret tt st2
                       /\ tty st2 = tty st).
Proof.
  split.
  - intros st Hst. unfold Screen.deinit_tty, bind, gets.
    rewrite Hst, class_getattr_empty. reflexivity.
  - intros st st1 Hinit.
    destruct (init_tty_Ret_inv cls st st1 Hinit) as (t & Ht & ->).
    simpl. rewrite class_getattr_setattr, Ht. split; [reflexivity |].
    eexists. unfold Screen.deinit_tty, bind, gets. simpl.
    rewrite class_getattr_setattr. unfold tcsetattr. simpl.
    split; reflexivity.
Qed.


(** ** Fixed-width output *)

Lemma encode_app s1 s2 b1 b2 :
  Utf8.encode s1 = Some b1 -> Utf8.encode s2 = Some b2 ->
  Utf8.encode (s1 ++ s2) = Some (b1 ++ b2).
Proof.
  revert b1. induction s1 as [|c s1 IH]; intros b1 H1 H2; simpl in *.
  - inversion H1. exact H2.
  - destruct (Utf8.encode_char c) as [bc|]; [| discriminate].
    destruct (Utf8.encode s1) as [bs|]; [| discriminate].
    inversion H1. rewrite (IH bs eq_refl H2), app_assoc. reflexivity.
Qed.

(** Scalar values are what encodes. *)
Lemma encode_char_scalar c :
  Utf8.is_scalar c = true <-> is_Some (Utf8.encode_char c).
Proof.
  unfold Utf8.is_scalar, Utf8.encode_char, Utf8.is_surrogate.
  destruct (Z.leb_spec 0 c), (Z.ltb_spec c 0), (Z.ltb_spec c 0x80),
    (Z.ltb_spec c 0x800), (Z.ltb_spec c 0x10000), (Z.ltb_spec c 0x110000),
    (Z.leb_spec 0xD800 c), (Z.leb_spec c 0xDFFF);
    simpl; try lia; split; intros Hx; try discriminate; eauto;
    destruct Hx; discriminate.
Qed.

Lemma encode_text s : text s <-> is_Some (Utf8.encode s).
Proof.
  induction s as [|c s IH]; simpl.
  - split; [eauto | constructor].
  - split.
    + intros Hs. inversion Hs as [|? ? Hc Hs']; subst.
      apply encode_char_scalar in Hc as [bc Hc]. apply IH in Hs' as [bs Hs'].
      rewrite Hc, Hs'. eauto.
    + intros [b Hb].
      destruct (Utf8.encode_char c) as [bc|] eqn:Hc; [| discriminate].
      destruct (Utf8.encode s) as [bs|]; [| discriminate].
      constructor; [apply encode_char_scalar; rewrite Hc; eauto |].
      apply IH. eauto.
Qed.

(** Text that holds a lone surrogate is refused by [wr], which then writes
    nothing. *)
Lemma wr_not_text s st :
  ~ text s -> Screen.wr (PStr s) st = Raise UnicodeEncodeError st.
Proof.
  intros Hs. unfold Screen.wr.
  destruct (Utf8.encode s) as [b|] eqn:Hb; [| reflexivity].
  exfalso. apply Hs, encode_text. eauto.
Qed.

(** A prefix of a text that encodes, encodes. *)
Lemma encode_take n s :
  is_Some (Utf8.encode s) -> is_Some (Utf8.encode (take n s)).
Proof.
  revert n. induction s as [|c s IH]; intros n [b Hb].
  - destruct n; simpl; eauto.
  - destruct n as [|n]; simpl; [eauto |].
    simpl in Hb.
    destruct (Utf8.encode_char c) as [bc|]; [| discriminate].
    destruct (Utf8.encode s) as [bs|] eqn:Hs; [| discriminate].
    destruct (IH n (ex_intro _ bs eq_refl)) as [bt Hbt].
    rewrite Hbt. eauto.
Qed.

(** Padding encodes to as many space bytes. *)
Lemma encode_spaces n :
  Utf8.encode (spaces n) = Some (replicate (Z.to_nat n) x20).
Proof.
  unfold spaces. induction (Z.to_nat n) as [|k IH]; simpl; [reflexivity |].
  rewrite IH. reflexivity.
Qed.

Lemma fixedw_text_length s w :
  0 <= w -> Z.of_nat (length (fixedw_text s w)) = w.
Proof.
  intros Hw. unfold fixedw_text, spaces.
  rewrite length_app, length_replicate, length_take. lia.
Qed.

Lemma fixedw_text_short s w :
  Z.of_nat (length s) <= w ->
  fixedw_text s w = s ++ spaces (w - Z.of_nat (length s)).
Proof.
  intros Hs. unfold fixedw_text. rewrite take_ge by lia. reflexivity.
Qed.

Lemma fixedw_text_long s w :
  0 <= w -> w < Z.of_nat (length s) ->
  fixedw_text s w = take (Z.to_nat w) s.
Proof.
  intros Hw Hs. unfold fixedw_text.
  rewrite length_take.
  replace (w - Z.of_nat (Z.to_nat w `min` length s)) with 0 by lia.
  apply app_nil_r.
Qed.

(** C7. For a text [s] and a width [w >= 0], [wr_fixedw] returns having
    written (UTF-8 encoded) exactly [w] characters: [s] and then
    [w - len(s)] spaces when [len(s) <= w], and the first [w] characters of
    [s], nothing more, when [len(s) > w]. *)
Theorem wr_fixedw_width (s : str) (w : Z) (st : State) :
  0 <= w -> text s ->
  exists text out,
    Z.of_nat (length text) = w
    /\ (Z.of_nat (length s) <= w ->
        text = s ++ spaces (w - Z.of_nat (length s)))
    /\ (w < Z.of_nat (length s) -> text = take (Z.to_nat w) s)
    /\ Utf8.encode text = Some out
    /\ Screen.wr_fixedw (PStr s) w st
       = Ret tt (set_stdout (stdout st ++ out) st).
Proof.
  intros Hw Hs. apply encode_text in Hs.
  destruct (encode_take (Z.to_nat w) s Hs) as [b1 Hb1].
  exists (fixedw_text s w),
    (b1 ++ replicate
             (Z.to_nat (w - Z.of_nat (length (take (Z.to_nat w) s)))) x20).
  split; [apply fixedw_text_length; exact Hw |].
  split; [apply fixedw_text_short |].
  split; [apply fixedw_text_long; exact Hw |].
  split.
  - unfold fixedw_text. apply encode_app; [exact Hb1 | apply encode_spaces].
  - unfold Screen.wr_fixedw, getslice_to, slice_to.
    destruct (Z.ltb_spec w 0) as [Hneg|_]; [lia |].
    unfold bind at 1, ret. unfold bind at 1, Screen.wr at 1.
    rewrite Hb1. unfold os_write, modify, len, bind, ret, Screen.wr.
    rewrite encode_spaces. unfold set_stdout. simpl.
    rewrite app_assoc. reflexivity.
Qed.

(** ** The codec: decoding is undone by encoding *)

Lemma byte_to_Z_range b : 0 <= byte_to_Z b <= 255.
Proof.
  unfold byte_to_Z. pose proof (Byte.to_N_bounded b). lia.
Qed.

Lemma byte_of_to_Z b : byte_of_Z (byte_to_Z b) = b.
Proof.
  unfold byte_of_Z, byte_to_Z. rewrite N2Z.id, Byte.of_to_N. reflexivity.
Qed.

Lemma between_spec lo hi b :
  Utf8.between lo hi b = true <-> lo <= byte_to_Z b <= hi.
Proof. unfold Utf8.between. rewrite andb_true_iff, !Z.leb_le. tauto. Qed.

(** Closes a goal [byte_of_Z e = b] where [e] is [byte_to_Z b] up to
    arithmetic. *)
Ltac byte_eq b :=
  transitivity (byte_of_Z (byte_to_Z b)); [| apply byte_of_to_Z];
  f_equal; unfold Utf8.low6 in *; Z.div_mod_to_equations; lia.

Lemma encode_char_1 b0 :
  byte_to_Z b0 < 0x80 -> Utf8.encode_char (byte_to_Z b0) = Some [b0].
Proof.
  intros H0. pose proof (byte_to_Z_range b0) as R0. unfold Utf8.encode_char.
  destruct (Z.ltb_spec (byte_to_Z b0) 0); [lia |].
  destruct (Z.ltb_spec (byte_to_Z b0) 0x80); [| lia].
  rewrite byte_of_to_Z. reflexivity.
Qed.

Lemma encode_char_2 b0 b1 :
  Utf8.between 0xC2 0xDF b0 = true -> Utf8.between 0x80 0xBF b1 = true ->
  Utf8.encode_char ((byte_to_Z b0 - 0xC0) * 64 + Utf8.low6 b1)
  = Some [b0; b1].
Proof.
  rewrite !between_spec. intros H0 H1. unfold Utf8.encode_char.
  set (c := (byte_to_Z b0 - 0xC0) * 64 + Utf8.low6 b1).
  assert (Hc : 0x80 <= c < 0x800) by (subst c; unfold Utf8.low6; lia).
  destruct (Z.ltb_spec c 0); [lia |].
  destruct (Z.ltb_spec c 0x80); [lia |].
  destruct (Z.ltb_spec c 0x800); [| lia].
  subst c. f_equal. f_equal; [byte_eq b0 | f_equal; byte_eq b1].
Qed.

Lemma second_ok_spec b0 b1 :
  Utf8.second_ok b0 b1 = true ->
  0x80 <= byte_to_Z b1 <= 0xBF
  /\ (byte_to_Z b0 = 0xE0 -> 0xA0 <= byte_to_Z b1)
  /\ (byte_to_Z b0 = 0xED -> byte_to_Z b1 <= 0x9F)
  /\ (byte_to_Z b0 = 0xF0 -> 0x90 <= byte_to_Z b1)
  /\ (byte_to_Z b0 = 0xF4 -> byte_to_Z b1 <= 0x8F).
Proof.
  unfold Utf8.second_ok.
  destruct (Z.eqb_spec (byte_to_Z b0) 0xE0);
    [rewrite between_spec; lia |].
  destruct (Z.eqb_spec (byte_to_Z b0) 0xED);
    [rewrite between_spec; lia |].
  destruct (Z.eqb_spec (byte_to_Z b0) 0xF0);
    [rewrite between_spec; lia |].
  destruct (Z.eqb_spec (byte_to_Z b0) 0xF4);
    [rewrite between_spec; lia |].
  rewrite between_spec. lia.
Qed.

Lemma encode_char_3 b0 b1 b2 :
  Utf8.between 0xE0 0xEF b0 = true -> Utf8.second_ok b0 b1 = true ->
  Utf8.between 0x80 0xBF b2 = true ->
  Utf8.encode_char ((byte_to_Z b0 - 0xE0) * 4096 + Utf8.low6 b1 * 64
                    + Utf8.low6 b2)
  = Some [b0; b1; b2].
Proof.
  rewrite !between_spec. intros H0 H1 H2.
  apply second_ok_spec in H1. unfold Utf8.encode_char, Utf8.is_surrogate.
  set (c := (byte_to_Z b0 - 0xE0) * 4096 + Utf8.low6 b1 * 64 + Utf8.low6 b2).
  assert (Hc : 0x800 <= c < 0x10000 /\ ~ (0xD800 <= c <= 0xDFFF))
    by (subst c; unfold Utf8.low6; lia).
  destruct (Z.ltb_spec c 0); [lia |].
  destruct (Z.ltb_spec c 0x80); [lia |].
  destruct (Z.ltb_spec c 0x800); [lia |].
  destruct (Z.ltb_spec c 0x10000); [| lia].
  destruct (Z.leb_spec 0xD800 c), (Z.leb_spec c 0xDFFF); simpl; try lia;
    subst c; f_equal;
    (f_equal; [byte_eq b0 | f_equal; [byte_eq b1 | f_equal; byte_eq b2]]).
Qed.

Lemma encode_char_4 b0 b1 b2 b3 :
  Utf8.between 0xF0 0xF4 b0 = true -> Utf8.second_ok b0 b1 = true ->
  Utf8.between 0x80 0xBF b2 = true -> Utf8.between 0x80 0xBF b3 = true ->
  Utf8.encode_char ((byte_to_Z b0 - 0xF0) * 262144 + Utf8.low6 b1 * 4096
                    + Utf8.low6 b2 * 64 + Utf8.low6 b3)
  = Some [b0; b1; b2; b3].
Proof.
  rewrite !between_spec. intros H0 H1 H2 H3.
  apply second_ok_spec in H1. unfold Utf8.encode_char.
  set (c := (byte_to_Z b0 - 0xF0) * 262144 + Utf8.low6 b1 * 4096
            + Utf8.low6 b2 * 64 + Utf8.low6 b3).
  assert (Hc : 0x10000 <= c < 0x110000) by (subst c; unfold Utf8.low6; lia).
  destruct (Z.ltb_spec c 0); [lia |].
  destruct (Z.ltb_spec c 0x80); [lia |].
  destruct (Z.ltb_spec c 0x800); [lia |].
  destruct (Z.ltb_spec c 0x10000); [lia |].
  destruct (Z.ltb_spec c 0x110000); [| lia].
  subst c. f_equal.
  f_equal; [byte_eq b0 | f_equal; [byte_eq b1 | f_equal;
    [byte_eq b2 | f_equal; byte_eq b3]]].
Qed.

Lemma fmap_cons_Some (c : Z) (o : option str) (s : str) :
  cons c <$> o = Some s -> exists s', o = Some s' /\ s = c :: s'.
Proof.
  destruct o as [s'|]; simpl; [| discriminate].
  intros Heq. inversion Heq. exists s'. split; reflexivity.
Qed.

Lemma encode_cons c s bc bs :
  Utf8.encode_char c = Some bc -> Utf8.encode s = Some bs ->
  Utf8.encode (c :: s) = Some (bc ++ bs).
Proof. intros Hc Hs. simpl. rewrite Hc, Hs. reflexivity. Qed.

(** Whatever decodes is the encoding of what it decodes to. *)
Lemma decode_encode_bounded (n : nat) :
  forall bs s, (length bs <= n)%nat ->
               Utf8.decode bs = Some s -> Utf8.encode s = Some bs.
Proof.
  induction n as [|n IH]; intros bs s Hlen Hdec.
  - destruct bs; [| simpl in Hlen; lia]. inversion Hdec. reflexivity.
  - destruct bs as [|b0 t0]; [inversion Hdec; reflexivity |].
    cbn [Utf8.decode] in Hdec. simpl in Hlen.
    destruct (Z.ltb_spec (byte_to_Z b0) 0x80) as [H1|_].
    { apply fmap_cons_Some in Hdec as (s' & Hs' & ->).
      apply (encode_cons _ _ [b0] t0); [apply encode_char_1; exact H1 |].
      apply IH; [lia | exact Hs']. }
    destruct (Utf8.between 0xC2 0xDF b0) eqn:H2.
    { destruct t0 as [|b1 t1]; [discriminate |].
      destruct (Utf8.between 0x80 0xBF b1) eqn:C1; [| discriminate].
      apply fmap_cons_Some in Hdec as (s' & Hs' & ->).
      apply (encode_cons _ _ [b0; b1] t1);
        [apply encode_char_2; assumption |].
      apply IH; [simpl in Hlen; lia | exact Hs']. }
    destruct (Utf8.between 0xE0 0xEF b0) eqn:H3.
    { destruct t0 as [|b1 [|b2 t2]]; try discriminate.
      destruct (Utf8.second_ok b0 b1) eqn:C1; [| discriminate].
      destruct (Utf8.between 0x80 0xBF b2) eqn:C2; [| discriminate].
      apply fmap_cons_Some in Hdec as (s' & Hs' & ->).
      apply (encode_cons _ _ [b0; b1; b2] t2);
        [apply encode_char_3; assumption |].
      apply IH; [simpl in Hlen; lia | exact Hs']. }
    destruct (Utf8.between 0xF0 0xF4 b0) eqn:H4; [| discriminate].
    destruct t0 as [|b1 [|b2 [|b3 t3]]]; try discriminate.
    destruct (Utf8.second_ok b0 b1) eqn:C1; [| discriminate].
    destruct (Utf8.between 0x80 0xBF b2) eqn:C2; [| discriminate].
    destruct (Utf8.between 0x80 0xBF b3) eqn:C3; [| discriminate].
    apply fmap_cons_Some in Hdec as (s' & Hs' & ->).
    apply (encode_cons _ _ [b0; b1; b2; b3] t3);
      [apply encode_char_4; assumption |].
    apply IH; [simpl in Hlen; lia | exact Hs'].
Qed.

Lemma decode_encode bs s :
  Utf8.decode bs = Some s -> Utf8.encode s = Some bs.
Proof. apply (decode_encode_bounded (length bs)). lia. Qed.

(** The first character of a decoded chunk and the rest of it encode to a
    split of the chunk. *)
Lemma decode_split bs c cs :
  Utf8.decode bs = Some (c :: cs) ->
  exists first rest,
    Utf8.encode (take 1 (c :: cs)) = Some first
    /\ Utf8.encode (drop 1 (c :: cs)) = Some rest
    /\ bs = first ++ rest /\ first <> [].
Proof.
  intros Hdec. apply decode_encode in Hdec. simpl in Hdec.
  destruct (Utf8.encode_char c) as [bc|] eqn:Hc; [| discriminate].
  destruct (Utf8.encode cs) as [bcs|] eqn:Hcs; [| discriminate].
  inversion Hdec. exists bc, bcs. simpl. rewrite Hc, app_nil_r.
  unfold drop. repeat split; try reflexivity.
  - exact Hcs.
  - unfold Utf8.encode_char in Hc.
    repeat match type of Hc with
           | (if ?b then _ else _) = _ => destruct b
           end; inversion Hc; discriminate.
Qed.

(** ** The input decoder *)

Lemma encode_char_length c b :
  Utf8.encode_char c = Some b -> (1 <= length b <= 4)%nat.
Proof.
  unfold Utf8.encode_char. intros Hc.
  repeat match type of Hc with
         | (if ?b then _ else _) = _ => destruct b
         end; inversion Hc; simpl; lia.
Qed.

Lemma byte_to_Z_esc b : byte_to_Z b = 0x1b <-> b = x1b.
Proof.
  split; [| intros ->; reflexivity].
  intros Hb. rewrite <- (byte_of_to_Z b), Hb. reflexivity.
Qed.

Section input_decoder.
Context {keytable : KeyTable}.

(** A byte sequence that is not six bytes long is no mouse report. *)
Lemma decode_mouse_not_six b st :
  length b <> 6%nat -> Widget.decode_mouse (PBytes b) st = Ret (PBytes b) st.
Proof.
  intros Hlen. unfold Widget.decode_mouse.
  rewrite (bool_decide_eq_false_2 _ Hlen), andb_false_r. reflexivity.
Qed.

(** Nor is one that lacks the prefix. *)
Lemma decode_mouse_no_prefix b st :
  startswith b MOUSE_PREFIX = false ->
  Widget.decode_mouse (PBytes b) st = Ret (PBytes b) st.
Proof. intros Hp. unfold Widget.decode_mouse. rewrite Hp. reflexivity. Qed.

(** Six bytes with the prefix are a click at the biased fifth and sixth. *)
Lemma decode_mouse_click b st :
  startswith b MOUSE_PREFIX = true -> length b = 6%nat ->
  exists b4 b5,
    b !! 4%nat = Some b4 /\ b !! 5%nat = Some b5
    /\ Widget.decode_mouse (PBytes b) st
       = Ret (PList [PInt (byte_to_Z b4 - 33); PInt (byte_to_Z b5 - 33)]) st.
Proof.
  intros Hp Hlen.
  destruct b as [|c0 [|c1 [|c2 [|c3 [|c4 [|c5 [|c6 b]]]]]]];
    simpl in Hlen; try lia.
  exists c4, c5. split; [reflexivity |]. split; [reflexivity |].
  unfold Widget.decode_mouse. rewrite Hp. reflexivity.
Qed.

(** A buffered byte is the next key; nothing is read and nothing decoded. *)
Lemma next_key_buffered st b kb :
  kbuf st = b :: kb -> Widget.next_key st = Ret [b] (set_kbuf kb st).
Proof.
  intros Hk. unfold Widget.next_key, bind, gets, modify. rewrite Hk.
  reflexivity.
Qed.

(** A fresh chunk that starts with ESC is the next key, whole. *)
Lemma next_key_escape st tl st0 :
  kbuf st = [] -> os_read 32 st = Ret (x1b :: tl) st0 ->
  Widget.next_key st = Ret (x1b :: tl) st0.
Proof.
  intros Hk Hr. unfold Widget.next_key, bind, gets. rewrite Hk, Hr.
  reflexivity.
Qed.

(** A fresh chunk of text: its first character is the next key and the
    bytes after it are the new lookahead buffer. *)
Lemma next_key_text st chunk st0 b0 c cs :
  kbuf st = [] -> os_read 32 st = Ret chunk st0 ->
  chunk !! 0%nat = Some b0 -> b0 <> x1b ->
  Utf8.decode chunk = Some (c :: cs) ->
  exists first more,
    Utf8.encode_char c = Some first /\ Utf8.encode cs = Some more
    /\ chunk = first ++ more
    /\ Widget.next_key st = Ret first (set_kbuf more st0).
Proof.
  intros Hk Hr Hb0 Hesc Hdec.
  destruct (decode_split chunk c cs Hdec) as (first & more & Hf & Hm & Hch & _).
  exists first, more.
  assert (Hc : Utf8.encode_char c = Some first).
  { simpl in Hf. destruct (Utf8.encode_char c) as [bc|]; [| discriminate].
    rewrite app_nil_r in Hf. exact Hf. }
  split; [exact Hc |]. split; [exact Hm |]. split; [exact Hch |].
  unfold Widget.next_key, bind at 1, gets. rewrite Hk.
  unfold bind at 1. rewrite Hr.
  unfold bind at 1, getitem. rewrite Hb0. unfold ret.
  destruct (decide (byte_to_Z b0 ≠ 27)) as [_|Hn].
  - rewrite Hdec, Hm, Hf. reflexivity.
  - exfalso. apply Hn. intros Heq. apply Hesc, byte_to_Z_esc, Heq.
Qed.

(** [get_input] on a key the table does not hold and that is too short
    for a mouse report: the key itself, as raw bytes. *)
Lemma get_input_raw st key st1 :
  Widget.next_key st = Ret key st1 -> KEYMAP !! key = None ->
  length key <> 6%nat ->
  Widget.get_input st = Ret (PBytes key) st1.
Proof.
  intros Hn Hk Hlen. unfold Widget.get_input.
  rewrite (bind_Ret _ _ _ _ _ Hn). unfold Widget.keymap_get. rewrite Hk.
  apply decode_mouse_not_six. exact Hlen.
Qed.

End input_decoder.

(** C5. When the key resolved through the table is a byte sequence that
    starts with [ESC [ M]: if it is 6 bytes long, [get_input] returns the
    pair [[b[4] - 33, b[5] - 33]] (column, row); if it is shorter, it
    returns the sequence itself.  A fresh read of [ESC [ M 33 35 37] that
    the table does not hold gives column 2, row 4. *)
Theorem get_input_mouse (keytable : KeyTable) :
  (forall st key st1 b,
     Widget.next_key st = Ret key st1 ->
     Widget.keymap_get key = PBytes b ->
     startswith b MOUSE_PREFIX = true ->
     (length b = 6%nat ->
      exists b4 b5,
        b !! 4%nat = Some b4 /\ b !! 5%nat = Some b5
        /\ Widget.get_input st
           = Ret (PList [PInt (byte_to_Z b4 - 33); PInt (byte_to_Z b5 - 33)])
                 st1)
     /\ ((length b < 6)%nat -> Widget.get_input st = Ret (PBytes b) st1))
  /\ (forall st rest,
        kbuf st = [] ->
        stdin st = [x1b; x5b; x4d; x21; x23; x25] :: rest ->
        KEYMAP !! [x1b; x5b; x4d; x21; x23; x25] = None ->
        Widget.get_input st = Ret (PList [PInt 2; PInt 4]) (set_stdin rest st)).
Proof.
  split.
  - intros st key st1 b Hn Hk Hp. unfold Widget.get_input.
    rewrite (bind_Ret _ _ _ _ _ Hn), Hk. split.
    + intros Hlen. apply decode_mouse_click; assumption.
    + intros Hlen. apply decode_mouse_not_six. lia.
  - intros st rest Hk Hin Hmap. unfold Widget.get_input.
    rewrite (bind_Ret _ _ _ _ (set_stdin rest st)
               (next_key_escape st _ _ Hk ltac:(unfold os_read; rewrite Hin;
                                                reflexivity))).
    unfold Widget.keymap_get. rewrite Hmap. reflexivity.
Qed.

(** C6. With an empty lookahead buffer, a fresh read whose first byte is
    not ESC is decoded as UTF-8: the key is the first character (resolved
    through the table, itself when the table does not hold it) and the
    bytes of the chunk after that character become the lookahead buffer.
    With a non-empty buffer, the key is its first byte, whatever that byte
    is; the rest stays buffered and nothing is read or decoded.  A fresh
    read of ["ab"] gives ['a'], then ['b'] with no read in between. *)
Theorem get_input_lookahead (keytable : KeyTable) :
  (forall st chunk st0 b0 c cs,
     kbuf st = [] -> os_read 32 st = Ret chunk st0 ->
     chunk !! 0%nat = Some b0 -> b0 <> x1b ->
     Utf8.decode chunk = Some (c :: cs) ->
     exists first more,
       Utf8.encode_char c = Some first /\ chunk = first ++ more
       /\ Widget.get_input st
          = Widget.decode_mouse (Widget.keymap_get first) (set_kbuf more st0)
       /\ (KEYMAP !! first = None ->
           Widget.get_input st = Ret (PBytes first) (set_kbuf more st0)))
  /\ (forall st b kb,
        kbuf st = b :: kb ->
        Widget.get_input st
        = Widget.decode_mouse (Widget.keymap_get [b]) (set_kbuf kb st)
        /\ (KEYMAP !! [b] = None ->
            Widget.get_input st = Ret (PBytes [b]) (set_kbuf kb st)))
  /\ (forall st rest,
        kbuf st = [] -> stdin st = [x61; x62] :: rest ->
        KEYMAP !! [x61] = None -> KEYMAP !! [x62] = None ->
        exists st1 st2,
          Widget.get_input st = Ret (PBytes [x61]) st1
          /\ Widget.get_input st1 = Ret (PBytes [x62]) st2
          /\ stdin st1 = rest /\ stdin st2 = rest /\ kbuf st2 = []).
Proof.
  split; [| split].
  - intros st chunk st0 b0 c cs Hk Hr Hb0 Hesc Hdec.
    destruct (next_key_text st chunk st0 b0 c cs Hk Hr Hb0 Hesc Hdec)
      as (first & more & Hc & _ & Hch & Hn).
    exists first, more. split; [exact Hc |]. split; [exact Hch |]. split.
    + unfold Widget.get_input. rewrite (bind_Ret _ _ _ _ _ Hn). reflexivity.
    + intros Hmap. apply get_input_raw; [exact Hn | exact Hmap |].
      pose proof (encode_char_length c first Hc). lia.
  - intros st b kb Hk. pose proof (next_key_buffered st b kb Hk) as Hn. split.
    + unfold Widget.get_input. rewrite (bind_Ret _ _ _ _ _ Hn). reflexivity.
    + intros Hmap. apply get_input_raw; [exact Hn | exact Hmap |].
      simpl. lia.
  - intros st rest Hk Hin Ha Hb.
    exists (set_kbuf [x62] (set_stdin rest st)),
      (set_kbuf [] (set_kbuf [x62] (set_stdin rest st))).
    split; [| split; [| repeat split]].
    + apply get_input_raw; [| exact Ha | simpl; lia].
      unfold Widget.next_key, bind, gets, os_read. rewrite Hk, Hin.
      reflexivity.
    + apply get_input_raw; [| exact Hb | simpl; lia].
      apply next_key_buffered. reflexivity.
Qed.

(** ** The run loop *)

Lemma finishes_spec res :
  Widget.finishes res = true <-> res <> PNone /\ res <> PBool true.
Proof.
  destruct res as [|[]| | | |]; simpl; split;
    try (intros _; split; discriminate); try discriminate;
    intros [H1 H2]; congruence.
Qed.

Lemma finishes_false res :
  Widget.finishes res = false <-> res = PNone \/ res = PBool true.
Proof.
  destruct res as [|[]| | | |]; simpl; split; try discriminate; auto;
    intros [H1|H1]; discriminate.
Qed.

Section run_loop.
Context {keytable : KeyTable} {methods : Methods}.

(** One turn: decode one event, dispatch it, and look at the result. *)
Lemma loop_turn_step st key st1 res st2 :
  Widget.get_input st = Ret key st1 ->
  Widget.handle_input key st1 = Ret res st2 ->
  Widget.loop_turn st
  = Ret (if Widget.finishes res then Some res else None) st2.
Proof.
  intros Hg Hh. unfold Widget.loop_turn.
  rewrite (bind_Ret _ _ _ _ _ Hg), (bind_Ret _ _ _ _ _ Hh).
  destruct (Widget.finishes res); reflexivity.
Qed.

Lemma loop_turn_inv st o st2 :
  Widget.loop_turn st = Ret o st2 ->
  exists key st1 res,
    Widget.get_input st = Ret key st1
    /\ Widget.handle_input key st1 = Ret res st2
    /\ o = (if Widget.finishes res then Some res else None).
Proof.
  unfold Widget.loop_turn. intros Ht.
  apply bind_Ret_inv in Ht as (key & st1 & Hg & Ht).
  apply bind_Ret_inv in Ht as (res & st2' & Hh & Ht).
  exists key, st1, res.
  destruct (Widget.finishes res); inversion Ht; subst; auto.
Qed.

(** The [while True], returning. *)
Lemma loop_while_returns fuel : forall st r st',
  Widget.loop_while fuel st = Ret (Some r) st' <->
  exists k st1 key st2,
    (k < fuel)%nat /\ continues st k st1
    /\ Widget.get_input st1 = Ret key st2
    /\ Widget.handle_input key st2 = Ret r st'
    /\ r <> PNone /\ r <> PBool true.
Proof.
  induction fuel as [|fuel IH]; intros st r st'.
  - split; [discriminate |]. intros (k & ? & ? & ? & Hk & _). lia.
  - cbn [Widget.loop_while]. split.
    + intros Hl. apply bind_Ret_inv in Hl as (o & sa & Ht & Hl).
      apply loop_turn_inv in Ht as (key & st1 & res & Hg & Hh & ->).
      destruct (Widget.finishes res) eqn:Hf.
      * inversion Hl; subst. apply finishes_spec in Hf.
        exists 0%nat, st, key, st1.
        split; [lia |]. split; [constructor |]. tauto.
      * apply IH in Hl as (k & s1 & key' & s2 & Hk & Hc & Hg' & Hh' & Hr).
        exists (S k), s1, key', s2. split; [lia |].
        split; [| tauto].
        apply (continues_S st key st1 res sa k s1); try assumption.
        apply finishes_false. exact Hf.
    + intros (k & s1 & key & s2 & Hk & Hc & Hg & Hh & Hr).
      inversion Hc as [|? key0 sa res sb k' ? Hg0 Hh0 Hres Hc']; subst.
      * rewrite (bind_Ret _ _ _ _ _ (loop_turn_step _ _ _ _ _ Hg Hh)).
        apply finishes_spec in Hr. rewrite Hr. reflexivity.
      * rewrite (bind_Ret _ _ _ _ _ (loop_turn_step _ _ _ _ _ Hg0 Hh0)).
        apply finishes_false in Hres. rewrite Hres.
        apply IH. exists k', s1, key, s2. split; [lia | tauto].
Qed.

(** The [while True], still running after [fuel] turns. *)
Lemma loop_while_running fuel : forall st st',
  Widget.loop_while fuel st = Ret None st' <-> continues st fuel st'.
Proof.
  induction fuel as [|fuel IH]; intros st st'.
  - simpl. unfold ret. split.
    + intros Hl. inversion Hl. constructor.
    + intros Hc. inversion Hc. reflexivity.
  - cbn [Widget.loop_while]. split.
    + intros Hl. apply bind_Ret_inv in Hl as (o & sa & Ht & Hl).
      apply loop_turn_inv in Ht as (key & st1 & res & Hg & Hh & ->).
      destruct (Widget.finishes res) eqn:Hf; [discriminate |].
      apply IH in Hl.
      apply (continues_S st key st1 res sa fuel st'); try assumption.
      apply finishes_false. exact Hf.
    + intros Hc.
      inversion Hc as [|? key0 sa res sb k' ? Hg0 Hh0 Hres Hc']; subst.
      rewrite (bind_Ret _ _ _ _ _ (loop_turn_step _ _ _ _ _ Hg0 Hh0)).
      apply finishes_false in Hres. rewrite Hres. apply IH. exact Hc'.
Qed.

(** If the redraw fails, so does [loop], before any input is decoded. *)
Lemma loop_redraw_raises fuel st e st' :
  redraw st = Raise e st' -> Widget.loop fuel st = Raise e st'.
Proof. intros Hr. unfold Widget.loop. apply bind_Raise. exact Hr. Qed.

End run_loop.

(** C9. [loop] redraws first.  It returns [r] exactly when, after the
    redraw and some number [k] of turns whose handler results were all
    [None] or [True], the next event decoded is dispatched to a handler
    whose result [r] is neither [None] nor [True]; [r] is returned as the
    handler gave it, and any number of turns above [k] allows for it.  It
    is still running after [fuel] turns exactly when all of them gave
    [None] or [True]. *)
Theorem loop_returns_handler_result
    (keytable : KeyTable) (methods : Methods) (fuel : nat)
    (st st' : State) (r : pyobj) :
  (Widget.loop fuel st = Ret (Some r) st' <->
   exists st0 k st1 key st2,
     redraw st = Ret tt st0 /\ (k < fuel)%nat /\ continues st0 k st1
     /\ Widget.get_input st1 = Ret key st2
     /\ Widget.handle_input key st2 = Ret r st'
     /\ r <> PNone /\ r <> PBool true)
  /\ (Widget.loop fuel st = Ret None st' <->
      exists st0, redraw st = Ret tt st0 /\ continues st0 fuel st').
Proof.
  unfold Widget.loop. split; split.
  - intros Hl. apply bind_Ret_inv in Hl as ([] & st0 & Hr & Hl).
    apply loop_while_returns in Hl as (k & s1 & key & s2 & Hl).
    exists st0, k, s1, key, s2. tauto.
  - intros (st0 & k & s1 & key & s2 & Hr & Hl).
    rewrite (bind_Ret _ _ _ _ _ Hr). apply loop_while_returns.
    exists k, s1, key, s2. exact Hl.
  - intros Hl. apply bind_Ret_inv in Hl as ([] & st0 & Hr & Hl).
    exists st0. split; [exact Hr |]. apply loop_while_running. exact Hl.
  - intros (st0 & Hr & Hc). rewrite (bind_Ret _ _ _ _ _ Hr).
    apply loop_while_running. exact Hc.
Qed.

(** ** Output primitives *)

Lemma scalar_below_surrogates c : 0 <= c < 0xD800 -> Utf8.is_scalar c = true.
Proof.
  intros Hc. unfold Utf8.is_scalar, Utf8.is_surrogate.
  destruct (Z.leb_spec 0 c), (Z.ltb_spec c 0x110000), (Z.leb_spec 0xD800 c),
    (Z.leb_spec c 0xDFFF); simpl; try reflexivity; lia.
Qed.

(** The literals of the source and the numbers it formats are text. *)
Lemma text_str_of_string s : text (str_of_string s).
Proof.
  unfold text, str_of_string. apply Forall_map, Forall_forall.
  intros a _. simpl. apply scalar_below_surrogates.
  pose proof (N_ascii_bounded a). lia.
Qed.

Lemma text_fmt_d z : text (fmt_d z).
Proof. apply text_str_of_string. Qed.

Lemma text_app s1 s2 : text s1 -> text s2 -> text (s1 ++ s2).
Proof. unfold text. intros H1 H2. apply Forall_app. split; assumption. Qed.

Lemma text_esc : text [ESC].
Proof. repeat constructor. Qed.

Lemma text_nil : text [].
Proof. constructor. Qed.

Lemma encode_encoded s : text s -> Utf8.encode s = Some (encoded s).
Proof.
  intros Hs. apply encode_text in Hs as [b Hb]. unfold encoded.
  rewrite Hb. reflexivity.
Qed.

Lemma encoded_app s1 s2 :
  text s1 -> text s2 -> encoded (s1 ++ s2) = encoded s1 ++ encoded s2.
Proof.
  intros H1 H2. unfold encoded at 1.
  rewrite (encode_app s1 s2 _ _ (encode_encoded s1 H1) (encode_encoded s2 H2)).
  reflexivity.
Qed.

Lemma set_stdout_id st : set_stdout (stdout st) st = st.
Proof. destruct st. reflexivity. Qed.

Lemma set_stdout_twice a b st :
  set_stdout (stdout (set_stdout a st) ++ b) (set_stdout a st)
  = set_stdout (a ++ b) st.
Proof. reflexivity. Qed.

Lemma wr_bytes_appends b : appends (Screen.wr (PBytes b)) b.
Proof. intros st. reflexivity. Qed.

Lemma wr_text_appends s : text s -> appends (Screen.wr (PStr s)) (encoded s).
Proof.
  intros Hs st. unfold Screen.wr. rewrite (encode_encoded s Hs). reflexivity.
Qed.

Lemma appends_ret : appends (ret tt) [].
Proof.
  intros st. unfold ret. rewrite app_nil_r, set_stdout_id. reflexivity.
Qed.

Lemma appends_bind m1 out1 m2 out2 :
  appends m1 out1 -> appends m2 out2 ->
  appends (bind m1 (fun _ => m2)) (out1 ++ out2).
Proof.
  intros H1 H2 st. unfold bind. rewrite H1, H2, set_stdout_twice, app_assoc.
  reflexivity.
Qed.

Lemma goto_text x y :
  text ([ESC] ++ str_of_string "[" ++ fmt_d (y + 1)
        ++ str_of_string ";" ++ fmt_d (x + 1) ++ str_of_string "H").
Proof.
  repeat apply text_app;
    first [apply text_esc | apply text_str_of_string | apply text_fmt_d].
Qed.

Lemma goto_appends x y : appends (Screen.goto x y) (goto_out x y).
Proof. apply wr_text_appends, goto_text. Qed.

(** The encoding of a text that is not empty is not empty. *)
Lemma encoded_nonempty c s : text (c :: s) -> encoded (c :: s) <> [].
Proof.
  intros Hs. pose proof (encode_encoded _ Hs) as He. simpl in He.
  destruct (Utf8.encode_char c) as [bc|] eqn:Hc; [| discriminate].
  destruct (Utf8.encode s) as [bs|]; [| discriminate].
  inversion He as [He']. pose proof (encode_char_length c bc Hc) as Hl.
  destruct bc; [simpl in Hl; lia | discriminate].
Qed.

Lemma clear_num_pos_appends num :
  exists out, appends (Screen.clear_num_pos num) out
              /\ (out = [] <-> num <= 0).
Proof.
  unfold Screen.clear_num_pos. destruct (Z.ltb_spec 0 num) as [Hn|Hn].
  - eexists. split.
    + apply wr_text_appends.
      repeat apply text_app;
        first [apply text_esc | apply text_str_of_string | apply text_fmt_d].
    + split; [| lia]. intros He. exfalso. revert He.
      apply (encoded_nonempty ESC).
      change (ESC :: ?s) with ([ESC] ++ s).
      repeat apply text_app;
        first [apply text_esc | apply text_str_of_string | apply text_fmt_d].
  - exists []. split; [apply appends_ret |]. split; [lia | reflexivity].
Qed.

(** X1. The drawing primitives [cls], [goto], [clear_to_eol],
    [attr_reset], [cursor], [enable_mouse], [disable_mouse] and
    [Widget.set_cursor] return for all their arguments and do nothing but
    append to the output: no input is read, and the widget, the class
    attributes and the terminal mode are left as they were.  [set_cursor]
    writes what [cursor(False)] writes. *)
Theorem drawing_primitives_append (x y : Z) (onoff : bool) :
  appends Screen.cls [x1b; x5b; x32; x4a]
  /\ appends (Screen.goto x y) (goto_out x y)
  /\ appends Screen.clear_to_eol [x1b; x5b; x30; x4b]
  /\ appends Screen.attr_reset [x1b; x5b; x30; x6d]
  /\ appends (Screen.cursor onoff)
       [x1b; x5b; x3f; x32; x35; if onoff then x68 else x6c]
  /\ appends Screen.enable_mouse [x1b; x5b; x3f; x39; x68]
  /\ appends Screen.disable_mouse [x1b; x5b; x3f; x39; x6c]
  /\ appends Widget.set_cursor [x1b; x5b; x3f; x32; x35; x6c].
Proof.
  repeat split; try apply wr_bytes_appends.
  - apply goto_appends.
  - destruct onoff; apply wr_bytes_appends.
Qed.

(** X2. [clear_num_pos] returns for every [num], having only appended to
    the output; it writes nothing exactly when [num <= 0]. *)
Theorem clear_num_pos_writes_iff_positive (num : Z) :
  exists out, appends (Screen.clear_num_pos num) out
              /\ (out = [] <-> num <= 0).
Proof. apply clear_num_pos_appends. Qed.

(** X3. Writes concatenate: two [wr] of bytes in a row do what one [wr] of
    their concatenation does, the same holds for two texts, and a text is
    written as its UTF-8 encoding is. *)
Theorem wr_concatenates (b1 b2 : bytes) (s1 s2 : str) (st : State) :
  bind (Screen.wr (PBytes b1)) (fun _ => Screen.wr (PBytes b2)) st
  = Screen.wr (PBytes (b1 ++ b2)) st
  /\ (text s1 -> text s2 ->
      bind (Screen.wr (PStr s1)) (fun _ => Screen.wr (PStr s2)) st
      = Screen.wr (PStr (s1 ++ s2)) st
      /\ Screen.wr (PStr s1) st = Screen.wr (PBytes (encoded s1)) st).
Proof.
  split.
  - rewrite (appends_bind _ _ _ _ (wr_bytes_appends b1) (wr_bytes_appends b2)).
    reflexivity.
  - intros H1 H2. split.
    + rewrite (appends_bind _ _ _ _ (wr_text_appends s1 H1)
                 (wr_text_appends s2 H2)).
      rewrite (wr_text_appends _ (text_app s1 s2 H1 H2)).
      rewrite encoded_app by assumption. reflexivity.
    + rewrite (wr_text_appends s1 H1). reflexivity.
Qed.

(** ** Boxes *)

Lemma flat_map_seq_S {A} (f : nat -> list A) a n :
  flat_map f (seq (S a) n) = flat_map (fun i => f (S i)) (seq a n).
Proof.
  revert a. induction n as [|n IH]; intros a; simpl; [reflexivity |].
  rewrite IH. reflexivity.
Qed.

(** A [while top < bottom] whose body only appends makes
    [bottom - top] turns, and appends what they append, in order. *)
Lemma while_below_appends body out :
  (forall t, appends (body t) (out t)) ->
  forall n fuel top bottom st,
    n = Z.to_nat (bottom - top) -> (n <= fuel)%nat ->
    while_below fuel body top bottom st
    = Ret true
        (set_stdout
           (stdout st ++ flat_map (fun i => out (top + Z.of_nat i)) (seq 0 n))
           st).
Proof.
  intros Hb. induction n as [|n IH]; intros fuel top bottom st Hn Hf.
  - simpl. rewrite app_nil_r, set_stdout_id.
    destruct fuel; simpl; destruct (Z.ltb_spec top bottom); try lia;
      reflexivity.
  - destruct fuel as [|fuel]; [lia |]. simpl.
    destruct (Z.ltb_spec top bottom); [| lia].
    unfold bind. rewrite Hb.
    rewrite (IH fuel (top + 1) bottom) by lia.
    rewrite set_stdout_twice, flat_map_seq_S, Z.add_0_r, <- app_assoc.
    rewrite (flat_map_ext (fun i => out (top + 1 + Z.of_nat i))
               (fun i => out (top + Z.of_nat (S i))))
      by (intros i; f_equal; lia).
    reflexivity.
Qed.

(** With fewer turns allowed than [bottom - top], it is still running. *)
Lemma while_below_running body out :
  (forall t, appends (body t) (out t)) ->
  forall fuel top bottom st,
    (fuel < Z.to_nat (bottom - top))%nat ->
    exists st', while_below fuel body top bottom st = Ret false st'.
Proof.
  intros Hb. induction fuel as [|fuel IH]; intros top bottom st Hf.
  - simpl. destruct (Z.ltb_spec top bottom); [| lia]. eexists. reflexivity.
  - simpl. destruct (Z.ltb_spec top bottom); [| lia].
    unfold bind. rewrite Hb. apply IH. lia.
Qed.

Lemma clear_line_appends left b top :
  appends (Screen.clear_line left (PBytes b) top) (goto_out left top ++ b).
Proof.
  apply appends_bind; [apply goto_appends | apply wr_bytes_appends].
Qed.

Lemma draw_sides_appends left width top :
  appends (Screen.draw_sides left width top)
    (goto_out left top ++ [xe2; x94; x82]
     ++ goto_out (left + width - 1) top ++ [xe2; x94; x82]).
Proof.
  unfold Screen.draw_sides.
  apply appends_bind; [apply goto_appends |].
  apply (appends_bind _ [xe2; x94; x82]); [apply wr_bytes_appends |].
  apply appends_bind; [apply goto_appends | apply wr_bytes_appends].
Qed.

Lemma clear_box_complete fuel left top width height st :
  (Z.to_nat height <= fuel)%nat ->
  Screen.clear_box fuel left top width height st
  = Ret true
      (set_stdout (stdout st ++ clear_box_out left top width height) st).
Proof.
  intros Hf. unfold Screen.clear_box, clear_box_out.
  apply (while_below_appends _
           (fun t => goto_out left t ++ bytes_repeat [x20] width)).
  - intros t. apply clear_line_appends.
  - f_equal. lia.
  - exact Hf.
Qed.

(** A statement that appends, followed by one that returns having
    appended. *)
Lemma bind_appends {A} (m : M unit) out (k : M A) a out2 :
  appends m out ->
  (forall st, k st = Ret a (set_stdout (stdout st ++ out2) st)) ->
  forall st, bind m (fun _ => k) st
             = Ret a (set_stdout (stdout st ++ out ++ out2) st).
Proof.
  intros Hm Hk st. unfold bind. rewrite Hm, Hk, set_stdout_twice, app_assoc.
  reflexivity.
Qed.

Lemma draw_box_complete fuel left top width height st :
  (Z.to_nat (height - 2) <= fuel)%nat ->
  Screen.draw_box fuel left top width height st
  = Ret true
      (set_stdout (stdout st ++ draw_box_out left top width height) st).
Proof.
  intros Hf. unfold Screen.draw_box, draw_box_out. cbv zeta. revert st.
  apply bind_appends; [apply goto_appends |].
  apply bind_appends; [apply wr_bytes_appends |].
  apply bind_appends; [apply wr_bytes_appends |].
  apply bind_appends; [apply wr_bytes_appends |].
  apply bind_appends; [apply goto_appends |].
  apply bind_appends; [apply wr_bytes_appends |].
  apply bind_appends; [apply wr_bytes_appends |].
  apply bind_appends; [apply wr_bytes_appends |].
  intros st.
  apply (while_below_appends _
           (fun t => goto_out left t ++ [xe2; x94; x82]
                     ++ goto_out (left + width - 1) t ++ [xe2; x94; x82])).
  - intros t. apply draw_sides_appends.
  - f_equal. lia.
  - exact Hf.
Qed.

(** X4. [clear_box] comes to an end: its loop makes exactly [height] turns
    (none when [height <= 0]).  It returns having appended, for each line
    from [top] down, the move to [(left, line)] and [width] spaces, and
    nothing else; with [height <= 0] it writes nothing. *)
Theorem clear_box_lines (fuel : nat) (left top width height : Z) (st : State) :
  ((Z.to_nat height <= fuel)%nat ->
   Screen.clear_box fuel left top width height st
   = Ret true
       (set_stdout (stdout st ++ clear_box_out left top width height) st))
  /\ ((fuel < Z.to_nat height)%nat ->
      exists st', Screen.clear_box fuel left top width height st
                  = Ret false st')
  /\ (height <= 0 -> clear_box_out left top width height = []).
Proof.
  split; [apply clear_box_complete |]. split.
  - intros Hf. unfold Screen.clear_box.
    apply (while_below_running _
             (fun t => goto_out left t ++ bytes_repeat [x20] width)).
    + intros t. apply clear_line_appends.
    + replace (top + height - top) with height by lia. exact Hf.
  - intros Hh. unfold clear_box_out.
    replace (Z.to_nat height) with 0%nat by lia. reflexivity.
Qed.

(** X5. [draw_box] comes to an end for every size: its loop makes
    [height - 2] turns (none when [height <= 2]).  It returns having
    appended the top border at [top], the bottom border at
    [top + height - 1] and then the two side bars of each line strictly
    between them, and nothing else.  Both borders are written whatever the
    size: their horizontal run is [width - 2] glyphs, none when
    [width <= 2]. *)
Theorem draw_box_borders (fuel : nat) (left top width height : Z)
    (st : State) :
  (Z.to_nat (height - 2) <= fuel)%nat ->
  Screen.draw_box fuel left top width height st
  = Ret true
      (set_stdout (stdout st ++ draw_box_out left top width height) st)
  /\ (height <= 2 ->
      draw_box_out left top width height
      = goto_out left top
        ++ [xe2; x94; x8c] ++ bytes_repeat [xe2; x94; x80] (width - 2)
        ++ [xe2; x94; x90]
        ++ goto_out left (top + height - 1)
        ++ [xe2; x94; x94] ++ bytes_repeat [xe2; x94; x80] (width - 2)
        ++ [xe2; x94; x98])
  /\ (width <= 2 -> bytes_repeat [xe2; x94; x80] (width - 2) = []).
Proof.
  intros Hf. split; [apply draw_box_complete; exact Hf |]. split.
  - intros Hh. unfold draw_box_out.
    replace (Z.to_nat (height - 2)) with 0%nat by lia. simpl.
    repeat rewrite app_nil_r. reflexivity.
  - intros Hw. unfold bytes_repeat.
    replace (Z.to_nat (width - 2)) with 0%nat by lia. reflexivity.
Qed.

(** X6. [dialog_box] clears the interior, then draws the border, then, if
    the title is a non-empty text, moves to [(left + 1, top)] and writes
    it over the top border; with the empty title it writes nothing after
    the border.  It comes to an end for every size. *)
Theorem dialog_box_title (fuel : nat) (left top width height : Z)
    (title : str) (st : State) :
  (Z.to_nat (height - 2) <= fuel)%nat -> text title ->
  Screen.dialog_box fuel left top width height (PStr title) st
  = Ret true
      (set_stdout
         (stdout st
          ++ clear_box_out (left + 1) (top + 1) (width - 2) (height - 2)
          ++ draw_box_out left top width height
          ++ (if decide (title = []) then []
              else goto_out (left + 1) top ++ encoded title))
         st).
Proof.
  intros Hf Ht. unfold Screen.dialog_box.
  rewrite (bind_Ret _ _ _ _ _
             (clear_box_complete fuel (left + 1) (top + 1) (width - 2)
                (height - 2) st Hf)).
  rewrite (bind_Ret _ _ _ _ _
             (draw_box_complete fuel left top width height _ Hf)).
  rewrite set_stdout_twice.
  cbn [truthy]. destruct (decide (title = [])) as [->|Hne].
  - rewrite bool_decide_eq_true_2 by reflexivity. cbn [negb]. unfold ret.
    rewrite app_nil_r, app_assoc. reflexivity.
  - rewrite (bool_decide_eq_false_2 _ Hne). cbn [negb]. cbv zeta.
    rewrite (bind_Ret _ _ _ _ _ (goto_appends (left + 1) top _)).
    rewrite (bind_Ret _ _ _ _ _ (wr_text_appends title Ht _)).
    unfold ret.
    repeat first [rewrite set_stdout_twice | rewrite <- app_assoc].
    reflexivity.
Qed.

(** ** Fixed-width output and colours, at the edges *)

Ltac solve_text :=
  repeat apply text_app;
  first [apply text_esc | apply text_str_of_string | apply text_fmt_d].

Lemma text_take n s : text s -> text (take n s).
Proof. unfold text. apply Forall_take. Qed.

Lemma spaces_not_positive n : n <= 0 -> spaces n = [].
Proof.
  intros Hn. unfold spaces. replace (Z.to_nat n) with 0%nat by lia.
  reflexivity.
Qed.

(** X7. A negative width does not write nothing: [s[:width]] then drops
    the last [-width] characters of [s], and the padding is empty.
    [wr_fixedw] returns having written the first [len(s) + width]
    characters of [s] (none if that is not positive) and no space. *)
Theorem wr_fixedw_negative_width (s : str) (w : Z) (st : State) :
  w < 0 -> text s ->
  Screen.wr_fixedw (PStr s) w st
  = Ret tt
      (set_stdout
         (stdout st ++ encoded (take (Z.to_nat (Z.of_nat (length s) + w)) s))
         st).
Proof.
  intros Hw Hs. unfold Screen.wr_fixedw, getslice_to, slice_to.
  destruct (Z.ltb_spec w 0) as [_|]; [| lia].
  unfold bind at 1, ret. unfold bind at 1.
  rewrite (wr_text_appends _ (text_take _ s Hs)).
  unfold len, bind, ret. rewrite spaces_not_positive by lia.
  rewrite (wr_text_appends [] text_nil).
  rewrite set_stdout_twice. unfold encoded at 2. cbn [Utf8.encode default].
  rewrite app_nil_r. reflexivity.
Qed.

(** X8. On a [bytes] object and a width [w >= 0], [wr_fixedw] writes
    exactly [w] bytes: the object and then spaces, or its first [w] bytes.
    On [None], a boolean or an integer (which cannot be sliced) and on a
    list (which [os.write] refuses) it raises [TypeError] and writes
    nothing. *)
Theorem wr_fixedw_bytes (b : bytes) (w : Z) (st : State) :
  0 <= w ->
  (exists out,
     Z.of_nat (length out) = w
     /\ (Z.of_nat (length b) <= w ->
         out = b ++ replicate (Z.to_nat (w - Z.of_nat (length b))) x20)
     /\ (w < Z.of_nat (length b) -> out = take (Z.to_nat w) b)
     /\ Screen.wr_fixedw (PBytes b) w st
        = Ret tt (set_stdout (stdout st ++ out) st))
  /\ (forall v,
        v = PNone \/ (exists c, v = PBool c) \/ (exists z, v = PInt z)
        \/ (exists l, v = PList l) ->
        Screen.wr_fixedw v w st = Raise TypeError st).
Proof.
  intros Hw. split.
  - exists (take (Z.to_nat w) b
            ++ replicate
                 (Z.to_nat (w - Z.of_nat (length (take (Z.to_nat w) b)))) x20).
    split; [| split; [| split]].
    + rewrite length_app, length_replicate, length_take. lia.
    + intros Hb. rewrite take_ge by lia. reflexivity.
    + intros Hb. rewrite length_take.
      replace (Z.to_nat (w - Z.of_nat (Z.to_nat w `min` length b))) with 0%nat
        by lia.
      apply app_nil_r.
    + unfold Screen.wr_fixedw, getslice_to, slice_to.
      destruct (Z.ltb_spec w 0) as [|_]; [lia |].
      unfold bind at 1, ret. unfold bind at 1.
      rewrite (wr_bytes_appends (take (Z.to_nat w) b)).
      unfold len, bind, ret.
      rewrite (wr_text_appends _ (proj2 (encode_text _)
                                    (ex_intro _ _ (encode_spaces _)))).
      unfold encoded. rewrite encode_spaces. cbn [default].
      rewrite set_stdout_twice, app_assoc. reflexivity.
  - intros v [->|[[c ->]|[[z ->]|[l ->]]]]; reflexivity.
Qed.

Lemma shiftr_4_le_8 fg : Z.shiftr fg 4 <= 8 <-> fg < 144.
Proof.
  rewrite Z.shiftr_div_pow2 by lia. change (2 ^ 4) with 16.
  Z.div_mod_to_equations. lia.
Qed.

(** X9. With the background left to its default, [attr_color] fails
    exactly when [fg >= 144] (a packed background above 8): it then raises
    [AssertionError] and writes nothing.  For every [fg < 144], negative
    ones included, it returns having only appended to the output. *)
Theorem attr_color_default_bg (fg : Z) (st : State) :
  (144 <= fg -> Screen.attr_color fg (Some (-1)) st = Raise AssertionError st)
  /\ (fg < 144 ->
      exists out, out <> []
        /\ Screen.attr_color fg (Some (-1)) st
           = Ret tt (set_stdout (stdout st ++ out) st)).
Proof.
  unfold Screen.attr_color.
  destruct (decide (Some (-1) = Some (-1))) as [_|Hne]; [| congruence].
  pose proof (shiftr_4_le_8 fg) as Hs.
  destruct (Z.leb_spec (Z.shiftr fg 4) 8) as [Hle|Hgt].
  - split; [lia |]. intros _.
    destruct (8 <? Z.land fg 15); eexists;
      (split; [| apply wr_text_appends; solve_text]);
      apply (encoded_nonempty ESC); change (ESC :: ?s) with ([ESC] ++ s);
      solve_text.
  - split; [reflexivity | lia].
Qed.

(** X10. With [bg] given as [None], [attr_color] never fails, whatever
    [fg] is: it appends the foreground sequence, [ESC [ fg+30 m] for
    [fg <= 8] and the bold [ESC [ fg+22 ;1m] for [fg > 8], and no
    background. *)
Theorem attr_color_no_background (fg : Z) :
  appends (Screen.attr_color fg None)
    (if 8 <? fg
     then encoded ([ESC] ++ str_of_string "[" ++ fmt_d (fg + 30 - 8)
                   ++ str_of_string ";1m")
     else encoded ([ESC] ++ str_of_string "[" ++ fmt_d (fg + 30)
                   ++ str_of_string "m")).
Proof.
  unfold Screen.attr_color.
  destruct (decide (None = Some (-1))) as [Heq|_]; [discriminate |].
  destruct (8 <? fg); apply wr_text_appends; solve_text.
Qed.

(** ** Raw mode, across calls and classes *)

(** With the attribute on one class only, a class finds it exactly when
    that class is in its method resolution order. *)
Lemma class_getattr_single c0 t cls :
  class_getattr (class_setattr ∅ c0 t) cls
  = if bool_decide (c0 ∈ mro cls) then Some t else None.
Proof. destruct c0, cls; vm_compute; reflexivity. Qed.

Lemma deinit_tty_found cls st t t0 :
  class_getattr (org_termios st) cls = Some t -> tty st = Some t0 ->
  Screen.deinit_tty cls st = Ret tt (set_tty (Some t) st).
Proof.
  intros Hg Ht. unfold Screen.deinit_tty, bind, gets, tcsetattr.
  rewrite Hg, Ht. reflexivity.
Qed.

Lemma deinit_tty_missing cls st :
  class_getattr (org_termios st) cls = None ->
  Screen.deinit_tty cls st = Raise AttributeError st.
Proof.
  intros Hg. unfold Screen.deinit_tty, bind, gets. rewrite Hg. reflexivity.
Qed.

Lemma deinit_tty_Ret_inv cls st st1 :
  Screen.deinit_tty cls st = Ret tt st1 ->
  exists t t0, class_getattr (org_termios st) cls = Some t
               /\ tty st = Some t0 /\ st1 = set_tty (Some t) st.
Proof.
  unfold Screen.deinit_tty, bind, gets, tcsetattr.
  destruct (class_getattr (org_termios st) cls) as [t|]; [| discriminate].
  destruct (tty st) as [t0|] eqn:Ht; [| discriminate].
  intros Heq. inversion Heq. exists t, t0. repeat split; reflexivity.
Qed.

(** C4. [deinit_tty]'s docstring promises the attributes the terminal had
    the last time [init_tty] was called, but [init_tty] stores them on the
    class it is called through and [deinit_tty] looks them up from the
    class it is called through: after [Widget.init_tty()], which returns,
    [Screen.deinit_tty()] raises [AttributeError] and the terminal is left
    with the raw attributes, the saved ones out of [Screen]'s reach on
    [Widget]. *)
Theorem deinit_tty_through_base_does_not_restore (platform : Platform) :
  bind (Screen.init_tty ClsWidget) (fun _ => Screen.deinit_tty ClsScreen)
    (Demo.start [] [])
  = Raise AttributeError
      (set_tty (Some (raw_mode Demo.cooked))
         (set_org_termios {[ ClsWidget := Demo.cooked ]} (Demo.start [] []))).
Proof.
  rewrite (bind_Ret _ _ _ _ _
             (init_tty_on_terminal ClsWidget (Demo.start [] []) Demo.cooked
                eq_refl)).
  apply deinit_tty_missing. reflexivity.
Qed.

(** X11. A second [init_tty] on a class overwrites the attributes the
    first one saved with those of the terminal at the second call, which
    the first call had made raw: after [init_tty], [init_tty],
    [deinit_tty], the terminal has the raw attributes, not those it had at
    the start. *)
Theorem init_tty_twice_loses_original
    (platform : Platform) (cls : klass) (st : State) (t : termios) :
  tty st = Some t ->
  exists st',
    bind (Screen.init_tty cls)
      (fun _ => bind (Screen.init_tty cls) (fun _ => Screen.deinit_tty cls)) st
    = Ret tt st'
    /\ tty st' = Some (raw_mode t)
    /\ class_getattr (org_termios st') cls = Some (raw_mode t).
Proof.
  intros Ht. eexists. split.
  - rewrite (bind_Ret _ _ _ _ _ (init_tty_on_terminal cls st t Ht)).
    rewrite (bind_Ret _ _ _ _ _
               (init_tty_on_terminal cls
                  (set_tty (Some (raw_mode t))
                     (set_org_termios (class_setattr (org_termios st) cls t)
                        st))
                  (raw_mode t) eq_refl)).
    apply (deinit_tty_found cls _ (raw_mode t) (raw_mode (raw_mode t)));
      [apply class_getattr_setattr | reflexivity].
  - split; [reflexivity |]. apply class_getattr_setattr.
Qed.

(** X12. The saved attributes are inherited: in a process where no class
    has [org_termios] yet, after [init_tty] on a class [c0], [deinit_tty]
    on [c0] or on any class derived from it returns and gives the terminal
    the attributes it had before [init_tty]. *)
Theorem deinit_tty_on_subclass
    (platform : Platform) (c0 cls : klass) (st : State) (t : termios) :
  org_termios st = ∅ -> tty st = Some t -> c0 ∈ mro cls ->
  exists st',
    bind (Screen.init_tty c0) (fun _ => Screen.deinit_tty cls) st = Ret tt st'
    /\ tty st' = Some t.
Proof.
  intros Ho Ht Hin. eexists. split.
  - rewrite (bind_Ret _ _ _ _ _ (init_tty_on_terminal c0 st t Ht)).
    apply (deinit_tty_found cls _ t (raw_mode t)); [| reflexivity].
    cbn [org_termios set_tty set_org_termios].
    rewrite Ho, class_getattr_single.
    rewrite bool_decide_eq_true_2 by exact Hin. reflexivity.
  - reflexivity.
Qed.

(** X13. The other way round it fails: after [init_tty] on a class [c0],
    [deinit_tty] on a class that does not derive from [c0] (a base of
    [c0], as [Screen] is of [Widget]) raises [AttributeError], and the
    terminal stays in raw mode. *)
Theorem deinit_tty_on_base_fails
    (platform : Platform) (c0 cls : klass) (st : State) (t : termios) :
  org_termios st = ∅ -> tty st = Some t -> c0 ∉ mro cls ->
  exists st',
    bind (Screen.init_tty c0) (fun _ => Screen.deinit_tty cls) st
    = Raise AttributeError st'
    /\ tty st' = Some (raw_mode t).
Proof.
  intros Ho Ht Hin. eexists. split.
  - rewrite (bind_Ret _ _ _ _ _ (init_tty_on_terminal c0 st t Ht)).
    apply deinit_tty_missing.
    cbn [org_termios set_tty set_org_termios].
    rewrite Ho, class_getattr_single.
    rewrite bool_decide_eq_false_2 by exact Hin. reflexivity.
  - reflexivity.
Qed.

(** X14. [init_tty] on a descriptor that is no terminal fails with the
    error of [tcgetattr] before it saves anything: the state is unchanged,
    and a [deinit_tty] after it fails as if [init_tty] had not been
    called. *)
Theorem init_tty_without_terminal
    (platform : Platform) (cls : klass) (st : State) :
  tty st = None ->
  Screen.init_tty cls st = Raise TermiosError st
  /\ (class_getattr (org_termios st) cls = None ->
      Screen.deinit_tty cls st = Raise AttributeError st).
Proof.
  intros Ht. split.
  - unfold Screen.init_tty, bind, tcgetattr. rewrite Ht. reflexivity.
  - apply deinit_tty_missing.
Qed.

(** X15. [deinit_tty] keeps the saved attributes, so it can be repeated:
    a second call returns too and changes nothing. *)
Theorem deinit_tty_twice (cls : klass) (st st1 : State) :
  Screen.deinit_tty cls st = Ret tt st1 ->
  Screen.deinit_tty cls st1 = Ret tt st1
  /\ org_termios st1 = org_termios st.
Proof.
  intros Hd. apply deinit_tty_Ret_inv in Hd as (t & t0 & Hg & Ht & ->).
  split; [| reflexivity].
  rewrite (deinit_tty_found cls _ t t); [reflexivity | exact Hg | reflexivity].
Qed.

(** ** The signal registry, across registrations *)

(** X16. One handler per name, the last one registered: after [on] with
    [h1] and then [on] with [h2] under the same name, emitting the name is
    one call of [h2], and [h1] is not called. *)
Theorem on_last_wins
    (callables : Callables) (sig : string) (h1 h2 : callable) (st : State) :
  bind (Widget.on sig h1)
    (fun _ => bind (Widget.on sig h2) (fun _ => Widget.signal sig)) st
  = bind (call h2) (fun _ => ret tt)
      (set_signals (<[sig := h2]> (signals st)) st).
Proof.
  unfold Widget.on, bind at 1 2, modify. rewrite signal_eq.
  cbn [signals set_signals]. rewrite lookup_insert_eq, insert_insert_eq.
  reflexivity.
Qed.

(** X17. Registering under one name leaves the other names alone: after
    [on] under [sig], emitting another name [sig'] calls the handler that
    was registered under [sig'] before, or does nothing if there was
    none. *)
Theorem on_other_names
    (callables : Callables) (sig sig' : string) (h : callable) (st : State) :
  sig <> sig' ->
  bind (Widget.on sig h) (fun _ => Widget.signal sig') st
  = match signals st !! sig' with
    | Some h' => bind (call h') (fun _ => ret tt)
                   (set_signals (<[sig := h]> (signals st)) st)
    | None => Ret tt (set_signals (<[sig := h]> (signals st)) st)
    end.
Proof.
  intros Hne. unfold Widget.on, bind at 1, modify. rewrite signal_eq.
  cbn [signals set_signals]. rewrite lookup_insert_ne by exact Hne.
  reflexivity.
Qed.

(** ** The input decoder, at the edges *)

Lemma text_drop n s : text s -> text (drop n s).
Proof. unfold text. apply Forall_drop. Qed.

(** What decodes is text. *)
Lemma decode_text bs s : Utf8.decode bs = Some s -> text s.
Proof.
  intros Hd. apply encode_text. rewrite (decode_encode bs s Hd). eauto.
Qed.

Section input_edges.
Context {keytable : KeyTable}.

(** The mouse test never fails and leaves the state alone. *)
Lemma decode_mouse_returns v st :
  exists v', Widget.decode_mouse v st = Ret v' st.
Proof.
  destruct v as [| | | |b|]; try (eexists; reflexivity).
  destruct (startswith b MOUSE_PREFIX) eqn:Hp;
    [| rewrite decode_mouse_no_prefix by exact Hp; eauto].
  destruct (decide (length b = 6%nat)) as [Hl|Hl];
    [| rewrite decode_mouse_not_six by exact Hl; eauto].
  destruct (decode_mouse_click b st Hp Hl) as (b4 & b5 & _ & _ & Hd).
  rewrite Hd. eauto.
Qed.

Lemma get_input_Raise_next_key st e st' :
  Widget.get_input st = Raise e st' <-> Widget.next_key st = Raise e st'.
Proof.
  unfold Widget.get_input, bind.
  destruct (Widget.next_key st) as [key st1|e1 st1|st1].
  - destruct (decode_mouse_returns (Widget.keymap_get key) st1) as [v' Hv].
    rewrite Hv. split; discriminate.
  - split; intros Heq; inversion Heq; reflexivity.
  - split; discriminate.
Qed.

(** The fresh-read branch of [next_key], once the chunk is there. *)
Lemma next_key_fresh st chunk st0 :
  kbuf st = [] -> os_read 32 st = Ret chunk st0 ->
  Widget.next_key st
  = match chunk with
    | [] => Raise IndexError st0
    | b0 :: _ =>
        if decide (b0 = x1b) then Ret chunk st0
        else match Utf8.decode chunk with
             | None => Raise UnicodeDecodeError st0
             | Some text =>
                 Ret (encoded (take 1 text))
                     (set_kbuf (encoded (drop 1 text)) st0)
             end
    end.
Proof.
  intros Hk Hr. unfold Widget.next_key, bind at 1, gets. rewrite Hk.
  unfold bind at 1. rewrite Hr. unfold bind at 1, getitem.
  destruct chunk as [|b0 tl]; [reflexivity |]. cbn [lookup list_lookup].
  unfold ret.
  destruct (decide (byte_to_Z b0 ≠ 27)) as [Hn|Hn];
    destruct (decide (b0 = x1b)) as [He|He].
  - exfalso. apply Hn. rewrite He. reflexivity.
  - destruct (Utf8.decode (b0 :: tl)) as [text0|] eqn:Hd; [| reflexivity].
    pose proof (decode_text _ _ Hd) as Ht.
    rewrite (encode_encoded _ (text_drop 1 _ Ht)).
    rewrite (encode_encoded _ (text_take 1 _ Ht)).
    reflexivity.
  - reflexivity.
  - exfalso. apply Hn. intros Hb. apply He, byte_to_Z_esc, Hb.
Qed.

Lemma os_read_cases n st :
  (stdin st = [] /\ os_read n st = Blocked st)
  \/ exists chunk st0, os_read n st = Ret chunk st0.
Proof.
  unfold os_read. destruct (stdin st) as [|c rest]; [left; auto | right].
  destruct (decide (length c <= n)%nat); eauto.
Qed.

End input_edges.

(** X18. [get_input] fails in two cases only, both on a fresh read (empty
    lookahead buffer): the read returns no byte (end of input) and
    [key[0]] raises [IndexError]; or the chunk does not start with ESC and
    is not valid UTF-8, and [decode] raises [UnicodeDecodeError].  In both
    the chunk is consumed and the buffer stays empty.  No other exception
    comes out of [get_input]. *)
Theorem get_input_failures
    (keytable : KeyTable) (st st' : State) (e : exn) :
  Widget.get_input st = Raise e st' <->
  kbuf st = []
  /\ exists chunk,
       os_read 32 st = Ret chunk st'
       /\ ((chunk = [] /\ e = IndexError)
           \/ (exists b0, chunk !! 0%nat = Some b0 /\ b0 <> x1b
                          /\ Utf8.decode chunk = None
                          /\ e = UnicodeDecodeError)).
Proof.
  rewrite get_input_Raise_next_key. split.
  - intros Hn. destruct (kbuf st) as [|b kb] eqn:Hk.
    + split; [reflexivity |].
      destruct (os_read_cases 32 st) as [[_ Hb]|(chunk & st0 & Hr)].
      * unfold Widget.next_key, bind, gets in Hn. rewrite Hk, Hb in Hn.
        discriminate.
      * rewrite (next_key_fresh st chunk st0 Hk Hr) in Hn.
        destruct chunk as [|b0 tl].
        { inversion Hn; subst. exists []. split; [exact Hr | left; auto]. }
        destruct (decide (b0 = x1b)) as [He|He]; [discriminate |].
        destruct (Utf8.decode (b0 :: tl)) eqn:Hd; [discriminate |].
        inversion Hn; subst. exists (b0 :: tl). split; [exact Hr |].
        right. exists b0. auto.
    + rewrite (next_key_buffered st b kb Hk) in Hn. discriminate.
  - intros (Hk & chunk & Hr & Hc).
    rewrite (next_key_fresh st chunk st' Hk Hr).
    destruct Hc as [[-> ->]|(b0 & Hb0 & He & Hd & ->)]; [reflexivity |].
    destruct chunk as [|c0 tl]; [discriminate |].
    inversion Hb0; subst.
    destruct (decide (b0 = x1b)); [contradiction |]. rewrite Hd. reflexivity.
Qed.

(** X19. The lookahead buffer is drained in order, one byte per call and
    with no read: with [kb] buffered and a key table of names, [len(kb)]
    calls of [get_input] return the bytes of [kb] one by one, each
    resolved through the table, and leave the buffer empty and the input
    untouched.  A character of several bytes that was buffered is thus
    returned as its bytes, never whole. *)
Theorem get_input_drains_buffer
    (keytable : KeyTable) (kb : bytes) (st : State) :
  names_only keytable -> kbuf st = kb ->
  get_inputs (length kb) st
  = Ret (map (fun b => Widget.keymap_get [b]) kb) (set_kbuf [] st).
Proof.
  intros Hnames. revert st. induction kb as [|b kb IH]; intros st Hk.
  - simpl. unfold ret. rewrite <- Hk. destruct st. reflexivity.
  - cbn [length get_inputs map].
    assert (Hg : Widget.get_input st
                 = Ret (Widget.keymap_get [b]) (set_kbuf kb st)).
    { unfold Widget.get_input.
      rewrite (bind_Ret _ _ _ _ _ (next_key_buffered st b kb Hk)).
      unfold Widget.keymap_get.
      destruct (KEYMAP !! [b]) as [v|] eqn:Hm; cbn [default].
      - destruct (Hnames _ _ Hm) as [s ->]. reflexivity.
      - apply decode_mouse_not_six. simpl. lia. }
    rewrite (bind_Ret _ _ _ _ _ Hg).
    rewrite (bind_Ret _ _ _ _ _ (IH (set_kbuf kb st) eq_refl)).
    reflexivity.
Qed.

(** X20. With a key table of names, what [get_input] returns is a key
    name (a [str]), a raw key (a [bytes]) or a click: a list of exactly two
    integers, each between -33 and 222.  [handle_input] passes a name or a
    raw key to [handle_key] and the two integers of a click to
    [handle_mouse]; its own indexing never fails on them. *)
Theorem get_input_result_dispatch
    (keytable : KeyTable) (methods : Methods) (st st1 : State) (v : pyobj) :
  names_only keytable -> Widget.get_input st = Ret v st1 ->
  ((exists s, v = PStr s) \/ (exists b, v = PBytes b)
   -> Widget.handle_input v st1 = handle_key v st1)
  /\ ((exists s, v = PStr s) \/ (exists b, v = PBytes b)
      \/ exists col row,
           v = PList [PInt col; PInt row]
           /\ -33 <= col <= 222 /\ -33 <= row <= 222
           /\ Widget.handle_input v st1
              = handle_mouse (PInt col) (PInt row) st1).
Proof.
  intros Hnames Hg. split.
  - intros [[s ->]|[b ->]]; reflexivity.
  - unfold Widget.get_input in Hg.
    apply bind_Ret_inv in Hg as (key & st0 & _ & Hd).
    unfold Widget.keymap_get in Hd.
    destruct (KEYMAP !! key) as [v0|] eqn:Hm; cbn [default] in Hd.
    + destruct (Hnames _ _ Hm) as [s ->]. simpl in Hd. inversion Hd.
      left. eauto.
    + destruct (startswith key MOUSE_PREFIX) eqn:Hp;
        [| rewrite decode_mouse_no_prefix in Hd by exact Hp;
           inversion Hd; right; left; eauto].
      destruct (decide (length key = 6%nat)) as [Hl|Hl];
        [| rewrite decode_mouse_not_six in Hd by exact Hl;
           inversion Hd; right; left; eauto].
      destruct (decode_mouse_click key st0 Hp Hl) as (b4 & b5 & _ & _ & Hc).
      rewrite Hc in Hd. inversion Hd; subst. right. right.
      exists (byte_to_Z b4 - 33), (byte_to_Z b5 - 33).
      pose proof (byte_to_Z_range b4). pose proof (byte_to_Z_range b5).
      repeat split; try lia.
Qed.

(** ** The run loop, when something fails *)

Section loop_failures.
Context {keytable : KeyTable} {methods : Methods}.

(** The turns that went round are behind: the loop goes on from where
    they left it. *)
Lemma loop_while_continues k : forall fuel st st1,
  continues st k st1 ->
  Widget.loop_while (k + fuel) st = Widget.loop_while fuel st1.
Proof.
  induction k as [|k IH]; intros fuel st st1 Hc.
  - inversion Hc. reflexivity.
  - inversion Hc as [|? key sa res sb k' ? Hg Hh Hres Hc']; subst.
    cbn [Nat.add Widget.loop_while].
    rewrite (bind_Ret _ _ _ _ _ (loop_turn_step _ _ _ _ _ Hg Hh)).
    apply finishes_false in Hres. rewrite Hres. apply IH. exact Hc'.
Qed.

Lemma loop_after_turns fuel k st st0 st1 :
  redraw st = Ret tt st0 -> continues st0 k st1 -> (k < fuel)%nat ->
  Widget.loop fuel st = bind Widget.loop_turn
                          (fun r => match r with
                                    | Some res => ret (Some res)
                                    | None => Widget.loop_while (fuel - k - 1)
                                    end) st1.
Proof.
  intros Hr Hc Hk. unfold Widget.loop. rewrite (bind_Ret _ _ _ _ _ Hr).
  replace fuel with (k + S (fuel - k - 1))%nat at 1 by lia.
  rewrite (loop_while_continues k _ st0 st1 Hc). reflexivity.
Qed.

End loop_failures.

(** X21. [loop] catches nothing: if, after the redraw and [k] turns that
    went round, decoding the next event fails, or the handler it is
    dispatched to raises, [loop] ends with that same exception, in the
    state the exception left. *)
Theorem loop_propagates_exceptions
    (keytable : KeyTable) (methods : Methods) (fuel k : nat)
    (st st0 st1 st2 : State) (e : exn) :
  redraw st = Ret tt st0 -> continues st0 k st1 -> (k < fuel)%nat ->
  (Widget.get_input st1 = Raise e st2
   \/ exists key st', Widget.get_input st1 = Ret key st'
                      /\ Widget.handle_input key st' = Raise e st2) ->
  Widget.loop fuel st = Raise e st2.
Proof.
  intros Hr Hc Hk Hfail. rewrite (loop_after_turns fuel k st st0 st1 Hr Hc Hk).
  apply bind_Raise. unfold Widget.loop_turn.
  destruct Hfail as [Hg|(key & st' & Hg & Hh)].
  - apply bind_Raise. exact Hg.
  - rewrite (bind_Ret _ _ _ _ _ Hg). apply bind_Raise. exact Hh.
Qed.

(** X22. [loop] has no way out when the input dries up: if, after the
    redraw and [k] turns that went round, the lookahead buffer is empty
    and nothing more will arrive on the input, [loop] is blocked in its
    read, however many turns it is allowed; it neither returns nor
    raises. *)
Theorem loop_blocks_without_input
    (keytable : KeyTable) (methods : Methods) (fuel k : nat)
    (st st0 st1 : State) :
  redraw st = Ret tt st0 -> continues st0 k st1 -> (k < fuel)%nat ->
  kbuf st1 = [] -> stdin st1 = [] ->
  Widget.loop fuel st = Blocked st1.
Proof.
  intros Hr Hc Hk Hkb Hin.
  rewrite (loop_after_turns fuel k st st0 st1 Hr Hc Hk).
  apply bind_Blocked. unfold Widget.loop_turn, Widget.get_input.
  apply bind_Blocked, bind_Blocked.
  unfold Widget.next_key, bind, gets, os_read. rewrite Hkb, Hin. reflexivity.
Qed.

(** ** Item selection, around the ends *)

(** X23. The selection wraps in both directions: on a widget of [n > 0]
    items, [move_sel(1)] from the last item selects the first, and
    [move_sel(-1)] from the first selects the last. *)
Theorem move_sel_wraps
    (methods : Methods) (callables : Callables) (st : State) :
  keeps_selection redraw -> (forall h, keeps_selection (call h)) ->
  items st <> [] ->
  (choice st = Z.of_nat (length (items st)) - 1 ->
   choice (state_of (ItemSelWidget.move_sel 1 st)) = 0)
  /\ (choice st = 0 ->
      choice (state_of (ItemSelWidget.move_sel (-1) st))
      = Z.of_nat (length (items st)) - 1).
Proof.
  intros Hr Hc Hi.
  assert (Hn : 0 < Z.of_nat (length (items st))).
  { destruct (items st); [contradiction | simpl; lia]. }
  split; intros Hch.
  - destruct (move_sel_choice 1 st Hr Hc Hi) as [-> _]. rewrite Hch.
    replace (Z.of_nat (length (items st)) - 1 + 1)
      with (Z.of_nat (length (items st))) by lia.
    apply Z_mod_same_full.
  - destruct (move_sel_choice (-1) st Hr Hc Hi) as [-> _]. rewrite Hch.
    symmetry. apply (Z.mod_unique _ _ (-1)); lia.
Qed.

(** X24. A move is undone by the opposite move, and a move by a multiple
    of the number of items changes nothing: from a selection within
    [0 <= choice < n], [move_sel(d)] followed by [move_sel(-d)], and
    [move_sel(k * n)] alone, leave [choice] as it was. *)
Theorem move_sel_undo
    (methods : Methods) (callables : Callables) (st : State) (d k : Z) :
  keeps_selection redraw -> (forall h, keeps_selection (call h)) ->
  0 <= choice st < Z.of_nat (length (items st)) ->
  (forall st1, ItemSelWidget.move_sel d st = Ret tt st1 ->
     choice (state_of (ItemSelWidget.move_sel (- d) st1)) = choice st)
  /\ choice (state_of
               (ItemSelWidget.move_sel (k * Z.of_nat (length (items st))) st))
     = choice st.
Proof.
  intros Hr Hc Hch.
  assert (Hi : items st <> []).
  { intros He. rewrite He in Hch. simpl in Hch. lia. }
  split.
  - intros st1 Hst1.
    destruct (move_sel_choice d st Hr Hc Hi) as [Hc1 Hi1].
    rewrite Hst1 in Hc1, Hi1. simpl in Hc1, Hi1.
    assert (Hi' : items st1 <> []) by (rewrite Hi1; exact Hi).
    destruct (move_sel_choice (- d) st1 Hr Hc Hi') as [-> _].
    rewrite Hc1, Hi1, Z.add_mod_idemp_l by lia.
    replace (choice st + d + - d) with (choice st) by lia.
    apply Z.mod_small. exact Hch.
  - destruct (move_sel_choice (k * Z.of_nat (length (items st))) st Hr Hc Hi)
      as [-> _].
    rewrite Z.mod_add by lia. apply Z.mod_small. exact Hch.
Qed.

(** ** Hit testing *)

Lemma leb_shift a b d : (a + d <=? b + d) = (a <=? b).
Proof. destruct (Z.leb_spec (a + d) (b + d)), (Z.leb_spec a b); lia. Qed.

Lemma ltb_shift a b c d : (a + d <? b + d + c) = (a <? b + c).
Proof.
  destruct (Z.ltb_spec (a + d) (b + d + c)), (Z.ltb_spec a (b + c)); lia.
Qed.

(** With its four attributes there, a widget contains the points of the
    half-open rectangle. *)
Lemma inside_rectangle x0 y0 w h x y :
  Widget.inside (mkGeometry (Some x0) (Some y0) (Some w) (Some h)) x y
  = Ok ((y0 <=? y) && (y <? y0 + h) && (x0 <=? x) && (x <? x0 + w)).
Proof.
  unfold Widget.inside. simpl.
  destruct (y0 <=? y), (y <? y0 + h), (x0 <=? x); reflexivity.
Qed.

(** X25. [set_xy] moves the rectangle and nothing else: a widget put at
    [(x0 + dx, y0 + dy)] answers for the point [(x + dx, y + dy)] what it
    answers at [(x0, y0)] for [(x, y)], error included. *)
Theorem inside_translation (g : Geometry) (x0 y0 dx dy x y : Z) :
  Widget.inside (Widget.set_xy (x0 + dx) (y0 + dy) g) (x + dx) (y + dy)
  = Widget.inside (Widget.set_xy x0 y0 g) x y.
Proof.
  unfold Widget.inside, Widget.set_xy. simpl.
  rewrite leb_shift. destruct (y0 <=? y); [| reflexivity].
  destruct (attr_h g) as [h|]; [| reflexivity].
  rewrite ltb_shift. destruct (y <? y0 + h); [| reflexivity].
  rewrite leb_shift. destruct (x0 <=? x); [| reflexivity].
  destruct (attr_w g) as [w|]; [| reflexivity].
  rewrite ltb_shift. reflexivity.
Qed.

(** X26. A widget whose width or height is zero or negative contains no
    point. *)
Theorem inside_empty (g : Geometry) (x y : Z) :
  (exists w, attr_w g = Some w /\ w <= 0)
  \/ (exists h, attr_h g = Some h /\ h <= 0) ->
  Widget.inside g x y <> Ok true.
Proof.
  unfold Widget.inside. intros Hs.
  destruct (attr_y g) as [y0|]; [| discriminate].
  destruct (Z.leb_spec y0 y); [| discriminate].
  destruct (attr_h g) as [h|]; [| discriminate].
  destruct (Z.ltb_spec y (y0 + h)); [| discriminate].
  destruct (attr_x g) as [x0|]; [| discriminate].
  destruct (Z.leb_spec x0 x); [| discriminate].
  destruct (attr_w g) as [w|]; [| discriminate].
  destruct (Z.ltb_spec x (x0 + w)); [| discriminate].
  destruct Hs as [(w' & Hw & Hle)|(h' & Hh & Hle)];
    inversion Hw || inversion Hh; subst; lia.
Qed.

(** X27. The right edge is excluded, so widgets laid side by side share no
    point and leave no gap: of two widgets of the same line and height,
    the second starting at the column where the first ends, a point is in
    at most one, and it is in one of them exactly when it is in the widget
    that spans both. *)
Theorem inside_side_by_side (x0 y0 w1 w2 h x y : Z) :
  0 <= w1 -> 0 <= w2 ->
  exists b1 b2,
    Widget.inside (mkGeometry (Some x0) (Some y0) (Some w1) (Some h)) x y
    = Ok b1
    /\ Widget.inside
         (mkGeometry (Some (x0 + w1)) (Some y0) (Some w2) (Some h)) x y
       = Ok b2
    /\ Widget.inside
         (mkGeometry (Some x0) (Some y0) (Some (w1 + w2)) (Some h)) x y
       = Ok (b1 || b2)
    /\ b1 && b2 = false.
Proof.
  intros H1 H2. rewrite !inside_rectangle. eexists _, _.
  split; [reflexivity |]. split; [reflexivity |].
  destruct (Z.leb_spec y0 y), (Z.ltb_spec y (y0 + h)), (Z.leb_spec x0 x),
    (Z.ltb_spec x (x0 + w1)), (Z.leb_spec (x0 + w1) x),
    (Z.ltb_spec x (x0 + w1 + w2)), (Z.ltb_spec x (x0 + (w1 + w2)));
    simpl; split; try reflexivity; lia.
Qed.

(** X28. A widget that was never positioned cannot be asked: [inside]
    raises [AttributeError] for every point.  A positioned widget without
    a height answers [False] for the points above it, because the test on
    [y] fails before [h] is read, and raises [AttributeError] for all
    others. *)
Theorem inside_missing_attributes (g : Geometry) (x0 y0 x y : Z) :
  (attr_y g = None -> Widget.inside g x y = Fail AttributeError)
  /\ (attr_h g = None ->
      Widget.inside (Widget.set_xy x0 y0 g) x y
      = if y0 <=? y then Fail AttributeError else Ok false).
Proof.
  unfold Widget.inside, Widget.set_xy. split.
  - intros ->. reflexivity.
  - intros Hh. simpl. rewrite Hh. reflexivity.
Qed.

(** ** The longest item *)

Lemma len_cases v st :
  (exists n, 0 <= n /\ len v st = Ret n st) \/ len v st = Raise TypeError st.
Proof.
  destruct v; simpl; try (right; reflexivity); left; eexists;
    (split; [| reflexivity]); lia.
Qed.

Lemma max_len_cases items : forall m st,
  (exists r,
     Widget.max_len m items st = Ret r st /\ m <= r
     /\ (forall t n, In t items -> len t st = Ret n st -> n <= r)
     /\ (r = m \/ exists t, In t items /\ len t st = Ret r st)
     /\ (forall t, In t items -> len t st <> Raise TypeError st))
  \/ (Widget.max_len m items st = Raise TypeError st
      /\ exists t, In t items /\ len t st = Raise TypeError st).
Proof.
  induction items as [|t items IH]; intros m st.
  - left. exists m. split; [reflexivity |]. split; [lia |].
    split; [intros t n [] |]. split; [left; reflexivity | intros t []].
  - cbn [Widget.max_len].
    destruct (len_cases t st) as [(n & Hn & Hl)|Hl].
    + rewrite (bind_Ret _ _ _ _ _ Hl).
      destruct (IH (if m <? n then n else m) st)
        as [(r & Hr & Hm & Hall & Hex & Hok)|(Hr & t' & Hin & Ht')].
      * left. exists r. split; [exact Hr |].
        assert (Hmn : m <= r /\ n <= r)
          by (destruct (Z.ltb_spec m n); lia).
        split; [lia |]. split; [| split].
        -- intros t' n' [<-|Hin] Hl'.
           ++ rewrite Hl in Hl'. inversion Hl'. lia.
           ++ apply (Hall t' n' Hin Hl').
        -- destruct Hex as [->|(t' & Hin & Ht')].
           ++ destruct (Z.ltb_spec m n); [| left; reflexivity].
              right. exists t. split; [left; reflexivity | exact Hl].
           ++ right. exists t'. split; [right; exact Hin | exact Ht'].
        -- intros t' [<-|Hin]; [rewrite Hl; discriminate | apply Hok, Hin].
      * right. split; [exact Hr |]. exists t'.
        split; [right; exact Hin | exact Ht'].
    + right. rewrite (bind_Raise _ _ _ _ _ Hl). split; [reflexivity |].
      exists t. split; [left; reflexivity | exact Hl].
Qed.

(** X29. On items that all have a length, [longest] returns a length that
    no item exceeds and, unless there is no item, that one of the items
    has; on no item it returns 0.  It is never negative and the state is
    untouched. *)
Theorem longest_is_maximum (items : list pyobj) (st : State) :
  (forall t, In t items -> exists n, len t st = Ret n st) ->
  exists m,
    Widget.longest items st = Ret m st /\ 0 <= m
    /\ (forall t n, In t items -> len t st = Ret n st -> n <= m)
    /\ (items <> [] -> exists t, In t items /\ len t st = Ret m st)
    /\ (items = [] -> m = 0).
Proof.
  intros Hsized. destruct items as [|t items].
  - exists 0. split; [reflexivity |]. split; [lia |].
    split; [intros t n [] |]. split; [contradiction | reflexivity].
  - cbn [Widget.longest].
    destruct (len_cases t st) as [(n & Hn & Hl)|Hl];
      [| destruct (Hsized t (or_introl eq_refl)) as [n Hn];
         rewrite Hl in Hn; discriminate].
    rewrite (bind_Ret _ _ _ _ _ Hl).
    destruct (max_len_cases items n st)
      as [(r & Hr & Hm & Hall & Hex & _)|(_ & t' & Hin & Ht')].
    + exists r. split; [exact Hr |]. split; [lia |]. split; [| split].
      * intros t' n' [<-|Hin] Hl'.
        -- rewrite Hl in Hl'. inversion Hl'. lia.
        -- apply (Hall t' n' Hin Hl').
      * intros _. destruct Hex as [->|(t' & Hin & Ht')].
        -- exists t. split; [left; reflexivity | exact Hl].
        -- exists t'. split; [right; exact Hin | exact Ht'].
      * discriminate.
    + destruct (Hsized t' (or_intror Hin)) as [n' Hn'].
      rewrite Ht' in Hn'. discriminate.
Qed.

(** X30. [longest] fails exactly when some item has no length ([None], a
    number, a boolean): it then raises the [TypeError] of [len], whatever
    the other items are. *)
Theorem longest_type_error (items : list pyobj) (st : State) :
  Widget.longest items st = Raise TypeError st
  <-> exists t, In t items /\ len t st = Raise TypeError st.
Proof.
  destruct items as [|t items].
  - simpl. split; [discriminate | intros (t & [] & _)].
  - cbn [Widget.longest].
    destruct (len_cases t st) as [(n & Hn & Hl)|Hl].
    + rewrite (bind_Ret _ _ _ _ _ Hl).
      destruct (max_len_cases items n st)
        as [(r & Hr & _ & _ & _ & Hok)|(Hr & t' & Hin & Ht')].
      * rewrite Hr. split; [discriminate |].
        intros (t' & [<-|Hin] & Ht'); [rewrite Hl in Ht'; discriminate |].
        exfalso. apply (Hok t' Hin Ht').
      * split; [| intros _; exact Hr]. intros _. exists t'.
        split; [right; exact Hin | exact Ht'].
    + rewrite (bind_Raise _ _ _ _ _ Hl). split; [| reflexivity].
      intros _. exists t. split; [left; reflexivity | exact Hl].
Qed.

(** * Runs on the demonstration widget *)

Import Demo.

Lemma demo_redraw_keeps_selection : keeps_selection redraw.
Proof.
  intros st. simpl. unfold bind, gets, Screen.wr.
  destruct (Utf8.encode _); split; reflexivity.
Qed.

Lemma demo_call_keeps_selection h : keeps_selection (call h).
Proof. intros st. split; reflexivity. Qed.

Lemma move_sel_range_and_sum_witness :
  0 <= choice (state_of (ItemSelWidget.move_sel 5 (start three []))) < 3
  /\ forall st1,
       ItemSelWidget.move_sel 5 (start three []) = Ret tt st1 ->
       choice (state_of (ItemSelWidget.move_sel (-7) st1))
       = choice (state_of (ItemSelWidget.move_sel (5 + -7) (start three []))).
Proof.
  pose proof (move_sel_range_and_sum widget bell (start three []) 5 (-7)
                demo_redraw_keeps_selection demo_call_keeps_selection
                ltac:(discriminate)) as (H1 & H2 & _).
  split; [exact H1 | exact H2].
Defined.

Lemma move_sel_zero_division_witness :
  ItemSelWidget.move_sel 1 (start [] []) = Raise ZeroDivisionError (start [] [])
  /\ ItemSelWidget.move_sel (-1) (start three [])
     = bind redraw (fun _ => Widget.signal "changed")
         (set_choice 2 (start three [])).
Proof.
  split.
  - apply (move_sel_zero_division widget bell (start [] []) 1). reflexivity.
  - apply (move_sel_zero_division widget bell (start three []) (-1)).
    discriminate.
Defined.

Lemma attr_color_packed_witness :
  Screen.attr_color (4 * 16 + 11) (Some (-1)) (start [] [])
  = Screen.attr_color 11 (Some 4) (start [] []).
Proof. apply attr_color_packed; lia. Defined.

Lemma deinit_tty_restores_witness :
  Screen.deinit_tty ClsScreen (start [] []) = Raise AttributeError (start [] [])
  /\ exists st1 st2,
       Screen.init_tty ClsWidget (start [] []) = Ret tt st1
       /\ tty st1 <> Some cooked
       /\ Screen.deinit_tty ClsWidget st1 = Ret tt st2
       /\ tty st2 = Some cooked.
Proof.
  split.
  - apply (deinit_tty_restores linux ClsScreen). reflexivity.
  - eexists.
    destruct (proj2 (deinit_tty_restores linux ClsWidget)
                (start [] []) _ eq_refl) as (_ & st2 & Hd & Ht).
    exists st2. split; [reflexivity |]. split; [discriminate |].
    split; [exact Hd | exact Ht].
Defined.

Lemma wr_fixedw_width_witness :
  exists text out,
    Z.of_nat (length text) = 7
    /\ (Z.of_nat (length (str_of_string "hello")) <= 7 ->
        text = str_of_string "hello"
               ++ spaces (7 - Z.of_nat (length (str_of_string "hello"))))
    /\ (7 < Z.of_nat (length (str_of_string "hello")) ->
        text = take (Z.to_nat 7) (str_of_string "hello"))
    /\ Utf8.encode text = Some out
    /\ Screen.wr_fixedw (PStr (str_of_string "hello")) 7 (start [] [])
       = Ret tt (set_stdout (stdout (start [] []) ++ out) (start [] [])).
Proof.
  apply (wr_fixedw_width (str_of_string "hello") 7 (start [] [])).
  - lia.
  - repeat constructor.
Defined.

Lemma get_input_mouse_witness :
  Widget.get_input (start [] [[x1b; x5b; x4d; x21; x23; x25]])
  = Ret (PList [PInt 2; PInt 4]) (set_stdin [] (start [] []))
  /\ Widget.get_input (start [] [[x1b; x5b; x4d; x21]])
     = Ret (PBytes [x1b; x5b; x4d; x21]) (start [] []).
Proof.
  split.
  - apply (proj2 (get_input_mouse keys)
             (start [] [[x1b; x5b; x4d; x21; x23; x25]]) []);
      vm_compute; reflexivity.
  - apply (proj1 (get_input_mouse keys)
             (start [] [[x1b; x5b; x4d; x21]]) [x1b; x5b; x4d; x21]
             (start [] []) [x1b; x5b; x4d; x21]);
      [vm_compute; reflexivity .. | simpl; lia].
Defined.

Lemma get_input_lookahead_witness :
  exists st1 st2,
    Widget.get_input (start [] [[x61; x62]]) = Ret (PBytes [x61]) st1
    /\ Widget.get_input st1 = Ret (PBytes [x62]) st2
    /\ stdin st1 = [] /\ stdin st2 = [] /\ kbuf st2 = [].
Proof.
  apply (proj2 (proj2 (get_input_lookahead keys)) (start [] [[x61; x62]]) []);
    vm_compute; reflexivity.
Defined.

Lemma loop_returns_handler_result_witness :
  exists st0 k st1 key st2,
    redraw (start [] [[x61]; [x1b; x5b; x41]]) = Ret tt st0
    /\ (k < 5)%nat /\ continues st0 k st1
    /\ Widget.get_input st1 = Ret key st2
    /\ Widget.handle_input key st2
       = Ret (PInt ACTION_OK) (set_stdout [x5b; x30; x5d] (start [] []))
    /\ PInt ACTION_OK <> PNone /\ PInt ACTION_OK <> PBool true.
Proof.
  apply (proj1 (proj1 (loop_returns_handler_result keys widget 5
                         (start [] [[x61]; [x1b; x5b; x41]])
                         (set_stdout [x5b; x30; x5d] (start [] []))
                         (PInt ACTION_OK)))).
  vm_compute. reflexivity.
Defined.

(** ** Runs of the other methods *)

Lemma demo_names_only : names_only keys.
Proof.
  intros k v Hkv. simpl in Hkv.
  apply lookup_insert_Some in Hkv as [[_ <-]|[_ Hkv]]; [eauto |].
  apply lookup_singleton_Some in Hkv as [_ <-]. eauto.
Qed.

Lemma wr_concatenates_witness :
  bind (Screen.wr (PBytes [x61])) (fun _ => Screen.wr (PBytes [x62]))
    (start [] [])
  = Screen.wr (PBytes ([x61] ++ [x62])) (start [] [])
  /\ bind (Screen.wr (PStr (str_of_string "a")))
       (fun _ => Screen.wr (PStr (str_of_string "b"))) (start [] [])
     = Screen.wr (PStr (str_of_string "a" ++ str_of_string "b")) (start [] []).
Proof.
  destruct (wr_concatenates [x61] [x62] (str_of_string "a")
              (str_of_string "b") (start [] [])) as [H1 H2].
  split; [exact H1 |].
  apply H2; repeat constructor.
Defined.

Lemma clear_box_lines_witness :
  Screen.clear_box 3 0 0 2 3 (start [] [])
  = Ret true (set_stdout (stdout (start [] []) ++ clear_box_out 0 0 2 3)
                         (start [] []))
  /\ exists st', Screen.clear_box 2 0 0 2 3 (start [] []) = Ret false st'.
Proof.
  split.
  - apply (clear_box_lines 3 0 0 2 3 (start [] [])). simpl. lia.
  - apply (clear_box_lines 2 0 0 2 3 (start [] [])). simpl. lia.
Defined.

Lemma draw_box_borders_witness :
  Screen.draw_box 2 0 0 5 4 (start [] [])
  = Ret true (set_stdout (stdout (start [] []) ++ draw_box_out 0 0 5 4)
                         (start [] [])).
Proof.
  apply (draw_box_borders 2 0 0 5 4 (start [] [])). simpl. lia.
Defined.

Lemma dialog_box_title_witness :
  Screen.dialog_box 2 0 0 10 4 (PStr (str_of_string "Hi")) (start [] [])
  = Ret true
      (set_stdout
         (stdout (start [] [])
          ++ clear_box_out (0 + 1) (0 + 1) (10 - 2) (4 - 2)
          ++ draw_box_out 0 0 10 4
          ++ (if decide (str_of_string "Hi" = []) then []
              else goto_out (0 + 1) 0 ++ encoded (str_of_string "Hi")))
         (start [] [])).
Proof.
  apply (dialog_box_title 2 0 0 10 4 (str_of_string "Hi") (start [] [])).
  - simpl. lia.
  - repeat constructor.
Defined.

Lemma wr_fixedw_negative_width_witness :
  Screen.wr_fixedw (PStr (str_of_string "hello")) (-2) (start [] [])
  = Ret tt (set_stdout [x68; x65; x6c] (start [] [])).
Proof.
  apply (wr_fixedw_negative_width (str_of_string "hello") (-2) (start [] [])).
  - lia.
  - repeat constructor.
Defined.

Lemma wr_fixedw_bytes_witness :
  exists out,
    Z.of_nat (length out) = 3
    /\ (Z.of_nat (length [x61]) <= 3 ->
        out = [x61] ++ replicate (Z.to_nat (3 - Z.of_nat (length [x61]))) x20)
    /\ (3 < Z.of_nat (length [x61]) -> out = take (Z.to_nat 3) [x61])
    /\ Screen.wr_fixedw (PBytes [x61]) 3 (start [] [])
       = Ret tt (set_stdout (stdout (start [] []) ++ out) (start [] []))
    /\ Screen.wr_fixedw (PList [PInt 1]) 3 (start [] [])
       = Raise TypeError (start [] []).
Proof.
  destruct (wr_fixedw_bytes [x61] 3 (start [] []) ltac:(lia))
    as [(out & H1 & H2 & H3 & H4) H5].
  exists out. repeat (split; [assumption |]).
  apply H5. right. right. right. eexists. reflexivity.
Defined.

Lemma attr_color_default_bg_witness :
  Screen.attr_color 200 (Some (-1)) (start [] [])
  = Raise AssertionError (start [] [])
  /\ exists out, out <> []
       /\ Screen.attr_color (-5) (Some (-1)) (start [] [])
          = Ret tt (set_stdout (stdout (start [] []) ++ out) (start [] [])).
Proof.
  split.
  - apply (attr_color_default_bg 200 (start [] [])). lia.
  - apply (attr_color_default_bg (-5) (start [] [])). lia.
Defined.

Lemma init_tty_twice_loses_original_witness :
  exists st',
    bind (Screen.init_tty ClsScreen)
      (fun _ => bind (Screen.init_tty ClsScreen)
                  (fun _ => Screen.deinit_tty ClsScreen)) (start [] [])
    = Ret tt st'
    /\ tty st' = Some (raw_mode cooked)
    /\ class_getattr (org_termios st') ClsScreen = Some (raw_mode cooked).
Proof.
  apply (init_tty_twice_loses_original linux ClsScreen (start [] []) cooked).
  reflexivity.
Defined.

Lemma deinit_tty_on_subclass_witness :
  exists st',
    bind (Screen.init_tty ClsScreen)
      (fun _ => Screen.deinit_tty ClsItemSelWidget) (start [] [])
    = Ret tt st'
    /\ tty st' = Some cooked.
Proof.
  apply (deinit_tty_on_subclass linux ClsScreen ClsItemSelWidget
           (start [] []) cooked); [reflexivity | reflexivity |].
  refine (bool_decide_unpack _ _). vm_compute. exact I.
Defined.

Lemma deinit_tty_on_base_fails_witness :
  exists st',
    bind (Screen.init_tty ClsWidget) (fun _ => Screen.deinit_tty ClsScreen)
      (start [] [])
    = Raise AttributeError st'
    /\ tty st' = Some (raw_mode cooked).
Proof.
  apply (deinit_tty_on_base_fails linux ClsWidget ClsScreen
           (start [] []) cooked); [reflexivity | reflexivity |].
  refine (proj1 (bool_decide_eq_false _) _). vm_compute. reflexivity.
Defined.

Lemma init_tty_without_terminal_witness :
  Screen.init_tty ClsScreen piped = Raise TermiosError piped
  /\ Screen.deinit_tty ClsScreen piped = Raise AttributeError piped.
Proof.
  destruct (init_tty_without_terminal linux ClsScreen piped eq_refl)
    as [H1 H2].
  split; [exact H1 | apply H2; reflexivity].
Defined.

Lemma deinit_tty_twice_witness :
  Screen.deinit_tty ClsWidget
    (set_org_termios {[ ClsScreen := cooked ]} (start [] []))
  = Ret tt (set_org_termios {[ ClsScreen := cooked ]} (start [] [])).
Proof.
  apply (deinit_tty_twice ClsWidget
           (set_org_termios {[ ClsScreen := cooked ]} (start [] []))).
  vm_compute. reflexivity.
Defined.

Lemma on_other_names_witness :
  bind (Widget.on "changed" (Callable 1)) (fun _ => Widget.signal "moved")
    (start [] [])
  = Ret tt (set_signals (<["changed" := Callable 1]> ∅) (start [] [])).
Proof.
  apply (on_other_names bell "changed" "moved" (Callable 1) (start [] [])).
  discriminate.
Defined.

Lemma get_input_failures_witness :
  Widget.get_input (start [] [[]; [x61]])
  = Raise IndexError (start [] [[x61]])
  /\ Widget.get_input (start [] [[x61; xc3]])
     = Raise UnicodeDecodeError (start [] []).
Proof.
  split.
  - apply (get_input_failures keys). split; [reflexivity |].
    exists []. split; [reflexivity |]. left. split; reflexivity.
  - apply (get_input_failures keys). split; [reflexivity |].
    exists [x61; xc3]. split; [reflexivity |]. right. exists x61.
    split; [reflexivity |]. split; [discriminate |]. split; reflexivity.
Defined.

Lemma get_input_drains_buffer_witness :
  get_inputs (length [x61; xc3; xa9])
    (set_kbuf [x61; xc3; xa9] (start [] [[x62]]))
  = Ret [PBytes [x61]; PBytes [xc3]; PBytes [xa9]]
        (set_kbuf [] (set_kbuf [x61; xc3; xa9] (start [] [[x62]]))).
Proof.
  apply (get_input_drains_buffer keys [x61; xc3; xa9]
           (set_kbuf [x61; xc3; xa9] (start [] [[x62]])) demo_names_only).
  reflexivity.
Defined.

Lemma get_input_result_dispatch_witness :
  Widget.handle_input (PStr (str_of_string "KEY_UP")) (start [] [])
  = handle_key (PStr (str_of_string "KEY_UP")) (start [] []).
Proof.
  apply (get_input_result_dispatch keys widget (start [] [[x1b; x5b; x41]])
           (start [] []) (PStr (str_of_string "KEY_UP")) demo_names_only).
  - vm_compute. reflexivity.
  - left. eexists. reflexivity.
Defined.

Lemma loop_propagates_exceptions_witness :
  Widget.loop 1 (start [] [[]])
  = Raise IndexError (set_stdout [x5b; x30; x5d] (start [] [])).
Proof.
  apply (loop_propagates_exceptions keys widget 1 0 (start [] [[]])
           (set_stdout [x5b; x30; x5d] (start [] [[]]))
           (set_stdout [x5b; x30; x5d] (start [] [[]]))).
  - reflexivity.
  - constructor.
  - lia.
  - left. vm_compute. reflexivity.
Defined.

Lemma loop_blocks_without_input_witness :
  Widget.loop 3 (start [] [])
  = Blocked (set_stdout [x5b; x30; x5d] (start [] [])).
Proof.
  apply (loop_blocks_without_input keys widget 3 0 (start [] [])
           (set_stdout [x5b; x30; x5d] (start [] []))).
  - reflexivity.
  - constructor.
  - lia.
  - reflexivity.
  - reflexivity.
Defined.

Lemma move_sel_wraps_witness :
  choice (state_of (ItemSelWidget.move_sel 1 (set_choice 2 (start three []))))
  = 0
  /\ choice (state_of (ItemSelWidget.move_sel (-1) (start three []))) = 3 - 1.
Proof.
  split.
  - apply (move_sel_wraps widget bell (set_choice 2 (start three []))
             demo_redraw_keeps_selection demo_call_keeps_selection);
      [discriminate | reflexivity].
  - apply (move_sel_wraps widget bell (start three [])
             demo_redraw_keeps_selection demo_call_keeps_selection);
      [discriminate | reflexivity].
Defined.

Lemma move_sel_undo_witness :
  (forall st1, ItemSelWidget.move_sel 5 (start three []) = Ret tt st1 ->
     choice (state_of (ItemSelWidget.move_sel (- 5) st1)) = 0)
  /\ choice (state_of (ItemSelWidget.move_sel (2 * 3) (start three []))) = 0.
Proof.
  apply (move_sel_undo widget bell (start three []) 5 2
           demo_redraw_keeps_selection demo_call_keeps_selection).
  simpl. lia.
Defined.

Lemma inside_empty_witness :
  Widget.inside (mkGeometry (Some 0) (Some 0) (Some 0) (Some 5)) 0 0
  <> Ok true.
Proof.
  apply inside_empty. left. exists 0. split; [reflexivity | lia].
Defined.

Lemma inside_side_by_side_witness :
  exists b1 b2,
    Widget.inside (mkGeometry (Some 5) (Some 3) (Some 4) (Some 2)) 9 3
    = Ok b1
    /\ Widget.inside (mkGeometry (Some (5 + 4)) (Some 3) (Some 6) (Some 2)) 9 3
       = Ok b2
    /\ Widget.inside (mkGeometry (Some 5) (Some 3) (Some (4 + 6)) (Some 2)) 9 3
       = Ok (b1 || b2)
    /\ b1 && b2 = false.
Proof. apply (inside_side_by_side 5 3 4 6 2 9 3); lia. Defined.

Lemma inside_missing_attributes_witness :
  Widget.inside (mkGeometry None None None None) 1 1 = Fail AttributeError
  /\ Widget.inside (Widget.set_xy 5 3 (mkGeometry None None None None)) 5 2
     = Ok false.
Proof.
  destruct (inside_missing_attributes (mkGeometry None None None None)
              5 3 1 1) as [H1 _].
  destruct (inside_missing_attributes (mkGeometry None None None None)
              5 3 5 2) as [_ H2].
  split; [apply H1; reflexivity | apply H2; reflexivity].
Defined.

Lemma longest_is_maximum_witness :
  exists m,
    Widget.longest [PStr (str_of_string "ab"); PBytes [x61]; PList []]
      (start [] [])
    = Ret m (start [] []) /\ 0 <= m.
Proof.
  destruct (longest_is_maximum
              [PStr (str_of_string "ab"); PBytes [x61]; PList []]
              (start [] [])) as (m & Hm & H0 & _).
  - intros t [<-|[<-|[<-|[]]]]; eexists; reflexivity.
  - exists m. split; assumption.
Defined.

Lemma longest_type_error_witness :
  Widget.longest [PStr (str_of_string "ab"); PInt 3] (start [] [])
  = Raise TypeError (start [] []).
Proof.
  apply longest_type_error. exists (PInt 3).
  split; [right; left; reflexivity | reflexivity].
Defined.
